(** * Panopto folder export: a shallow embedding of [panopto-oauth-client.py]

    The script pages through the sessions of a Panopto folder
    ([PanoptoClient.get_folder_contents]) and writes one CSV row per session
    ([PanoptoClient.export_recordings_to_csv]).

    Modelling choices.
    - Values decoded by [response.json()] are the inductive type [json]; a
      Python [str] is a Rocq [string] holding its UTF-8 bytes, a Python [int]
      is a [Z], a finite Python [float] is given by its exact rational value,
      the three floats that are not finite are [JNonFinite].
    - [requests.get] is a function from the request the loop builds to an
      [http_result]; the loop never issues the same request twice, so this is
      as general as a sequence of page responses.
    - The [while True] loop is the iteration of [loop_body]; [loop] runs it
      with fuel and answers [None] when the fuel runs out.
    - Python exceptions are values of [exn]; a call either returns or raises
      ([outcome]).
    - The output file lives in a [filesystem], a map from paths to contents;
      opening the file for writing is taken to succeed.
    - What the script prints is not modelled, except that [left_by] records
      which [break] ended the loop.
    - [repr] of floats and containers, and the arithmetic of lines 156-158
      on floats outside the range where it is exact, are taken from the
      Python runtime, a parameter ([python]).
    Left out: strings that UTF-8 cannot encode. *)

From Stdlib Require Import ZArith QArith Qround List String Ascii Bool Lia Arith.
From Stdlib Require Import DecimalString.
Import ListNotations.

#[local] Set Warnings "-register-all".
Close Scope Q_scope.
Local Open Scope string_scope.
Local Open Scope list_scope.
Local Open Scope nat_scope.

(** ** Python values *)

(** The exceptions the script can meet. *)
Inductive exn : Type :=
| AuthenticationError            (* raised by the OAuth2 helper *)
| AttributeError                 (* [x.get] on something that is not a dict *)
| TypeError                      (* [len], iteration, comparison or arithmetic on a wrong type *)
| ValueError                     (* [int] of a float that is not finite *)
| KeyError (key : string)        (* [d[key]] on a dict without [key] *)
| UnboundLocalError (var : string).

(** A call returns a value or raises. *)
Inductive outcome (A : Type) : Type :=
| Returned (a : A)
| Raised (e : exn).
Arguments Returned {A} a.
Arguments Raised {A} e.

(** The floats that are not numbers of their own: [json.loads] reads them
    from [NaN], [Infinity] and [-Infinity], and from literals too large for a
    float ([1e999]). *)
Inductive nonfinite : Type := NaN | PosInf | NegInf.

(** What [json.loads] builds.  [JObj] is a dict in insertion order (the keys of
    a decoded object are distinct); [JFloat q] is the finite float whose
    exact value is [q]. *)
Inductive json : Type :=
| JNull
| JBool (b : bool)
| JInt (z : Z)
| JFloat (q : Q)
| JNonFinite (f : nonfinite)
| JStr (s : string)
| JArr (xs : list json)
| JObj (kvs : list (string * json)).

Fixpoint assoc (k : string) (kvs : list (string * json)) : option json :=
  match kvs with
  | [] => None
  | (k', v) :: rest => if String.eqb k k' then Some v else assoc k rest
  end.

(** [d.get(key, default)]: only a dict has the method. *)
Definition dict_get (d : json) (key : string) (default : json) : outcome json :=
  match d with
  | JObj kvs =>
      match assoc key kvs with
      | Some v => Returned v
      | None => Returned default
      end
  | _ => Raised AttributeError
  end.

(** Truth value of a Python object ([if not x]). *)
Definition truthy (v : json) : bool :=
  match v with
  | JNull => false
  | JBool b => b
  | JInt z => negb (z =? 0)%Z
  | JFloat q => negb (Qeq_bool q 0%Q)
  | JNonFinite _ => true
  | JStr s => negb (String.eqb s EmptyString)
  | JArr xs => match xs with [] => false | _ :: _ => true end
  | JObj kvs => match kvs with [] => false | _ :: _ => true end
  end.

(** A UTF-8 continuation byte is [10xxxxxx]. *)
Definition is_continuation (c : ascii) : bool :=
  let n := nat_of_ascii c in (128 <=? n) && (n <? 192).

(** The characters of a [str], each as the bytes that encode it. *)
Fixpoint utf8_chars (s : string) : list string :=
  match s with
  | EmptyString => []
  | String c rest =>
      match utf8_chars rest with
      | String c' tl :: more =>
          if is_continuation c' then String c (String c' tl) :: more
          else String c EmptyString :: String c' tl :: more
      | more => String c EmptyString :: more
      end
  end.

(** [len(x)]: a str has its characters, a list its elements, a dict its
    keys; nothing else the decoder builds has a length. *)
Definition py_len (v : json) : outcome nat :=
  match v with
  | JStr s => Returned (List.length (utf8_chars s))
  | JArr xs => Returned (List.length xs)
  | JObj kvs => Returned (List.length kvs)
  | _ => Raised TypeError
  end.

(** What [list.extend(x)] appends: the elements of a list, the characters of
    a str, the keys of a dict; anything else is not iterable. *)
Definition py_iter (v : json) : outcome (list json) :=
  match v with
  | JArr xs => Returned xs
  | JStr s => Returned (map JStr (utf8_chars s))
  | JObj kvs => Returned (map (fun kv => JStr (fst kv)) kvs)
  | _ => Raised TypeError
  end.

(** [n >= t] for an int [n]: defined against numbers (bool counts as 0 or 1;
    nothing is at least [NaN] or infinity, everything is at least minus
    infinity), a [TypeError] against anything else. *)
Definition int_ge (n : Z) (t : json) : outcome bool :=
  match t with
  | JInt z => Returned (z <=? n)%Z
  | JBool b => Returned ((if b then 1 else 0) <=? n)%Z
  | JFloat q => Returned (Qle_bool q (inject_Z n))
  | JNonFinite NegInf => Returned true
  | JNonFinite _ => Returned false
  | _ => Raised TypeError
  end.

(** ** HTTP *)

(** The query parameters of one page request. *)
Record params : Type := {
  sortField : string;
  sortOrder : string;
  pageNumber : nat;
  pageSize : nat
}.

(** The headers built by [_get_headers]. *)
Record headers : Type := {
  Authorization : string;
  Content_Type : string
}.

Record request : Type := {
  req_url : string;
  req_headers : headers;
  req_params : params
}.

(** What [requests.get] gives back: a [RequestException] before any response
    (connection refused, timeout, ...), or a response with its status code and
    what [response.json()] makes of the body ([None]: the body is not JSON). *)
Inductive http_result : Type :=
| TransportError
| Response (status_code : Z) (body : option json).

(** [response.raise_for_status()] raises [HTTPError] for 4xx and 5xx codes
    and returns for every other code. *)
Definition raise_for_status (status_code : Z) : bool :=
  ((400 <=? status_code) && (status_code <? 600))%Z.

(** ** The client *)

Record PanoptoClient : Type := {
  server_url : string;
  access_token : option string
}.

(** [s.rstrip('/')]. *)
Fixpoint rstrip_slash (s : string) : string :=
  match s with
  | EmptyString => EmptyString
  | String c rest =>
      match rstrip_slash rest with
      | EmptyString => if Ascii.eqb c "/" then EmptyString else String c EmptyString
      | r => String c r
      end
  end.

(** [__init__]: the address is kept without trailing slashes and no token
    is cached yet.  (The OAuth2 helper the constructor also builds is the
    [oauth] parameter of the functions below.) *)
Definition __init__ (url : string) : PanoptoClient :=
  {| server_url := rstrip_slash url; access_token := None |}.

(** [_ensure_authenticated]: the token is fetched when none is cached (an
    empty token counts as none) and cached.  [oauth] is the answer of
    [PanoptoOAuth2.get_access_token_authorization_code_grant], which lives
    outside this file: a token or an exception. *)
Definition _ensure_authenticated (oauth : outcome string) (c : PanoptoClient)
  : outcome string * PanoptoClient :=
  match access_token c with
  | Some (String a t) => (Returned (String a t), c)
  | _ =>
      match oauth with
      | Returned token =>
          (Returned token, {| server_url := server_url c; access_token := Some token |})
      | Raised e => (Raised e, c)
      end
  end.

Definition _get_headers (oauth : outcome string) (c : PanoptoClient)
  : outcome headers * PanoptoClient :=
  match _ensure_authenticated oauth c with
  | (Returned token, c') =>
      (Returned {| Authorization := ("Bearer " ++ token)%string;
                   Content_Type := "application/json" |}, c')
  | (Raised e, c') => (Raised e, c')
  end.

(** ** The pagination loop of [get_folder_contents] *)

Definition page_size : nat := 100.

(** The locals the loop reads and writes.  [total_recordings] is unbound
    until a page has been decoded. *)
Record loop_state : Type := {
  all_recordings : list json;
  page_number : nat;
  total_recordings : option json
}.

Definition initial_state : loop_state :=
  {| all_recordings := []; page_number := 1; total_recordings := None |}.

(** The five [break] statements of the loop. *)
Inductive break_reason : Type :=
| JsonDecodeError         (* line 87: the body is not JSON *)
| NoMoreRecordings        (* line 103: [not results] *)
| RetrievedAll            (* line 110: [len(all_recordings) >= total_recordings] *)
| RequestError            (* line 116: a [RequestException] *)
| UnexpectedError.        (* line 119: any other [Exception] *)

Inductive iteration : Type :=
| Continue (st : loop_state)
| Break (why : break_reason) (st : loop_state).

Definition page_request (endpoint : string) (hd : headers) (n : nat) : request :=
  {| req_url := endpoint;
     req_headers := hd;
     req_params := {| sortField := "CreatedDate"; sortOrder := "Desc";
                      pageNumber := n; pageSize := page_size |} |}.

Section Fetch.

Variable http : request -> http_result.
Variable endpoint : string.
Variable hd : headers.

(** One pass through the body of [while True] (lines 57-119).  A failing
    [requests.get] and the [HTTPError] of [raise_for_status] are caught on
    line 114, a body that is not JSON on line 84, and any other exception
    ([AttributeError] of [data.get], [TypeError] of the [len(results)] that
    line 98 prints, of [extend] or of [>=]) on line 117; each handler breaks
    with the locals as they are then. *)
Definition loop_body (st : loop_state) : iteration :=
  match http (page_request endpoint hd (page_number st)) with
  | TransportError => Break RequestError st
  | Response status_code body =>
      if negb (status_code =? 200)%Z && raise_for_status status_code
      then Break RequestError st
      else
        match body with
        | None => Break JsonDecodeError st
        | Some data =>
            match dict_get data "Results" (JArr []),
                  dict_get data "TotalNumberOfResults" (JInt 0) with
            | Returned results, Returned total =>
                let st1 := {| all_recordings := all_recordings st;
                              page_number := page_number st;
                              total_recordings := Some total |} in
                match py_len results with
                | Raised _ => Break UnexpectedError st1
                | Returned _ =>
                    if negb (truthy results) then Break NoMoreRecordings st1
                    else
                      match py_iter results with
                      | Raised _ => Break UnexpectedError st1
                      | Returned items =>
                          let st2 := {| all_recordings := all_recordings st ++ items;
                                        page_number := page_number st;
                                        total_recordings := Some total |} in
                          match int_ge (Z.of_nat (List.length (all_recordings st2)))
                                  total with
                          | Raised _ => Break UnexpectedError st2
                          | Returned true => Break RetrievedAll st2
                          | Returned false =>
                              Continue {| all_recordings := all_recordings st2;
                                          page_number := S (page_number st);
                                          total_recordings := Some total |}
                          end
                      end
                end
            | _, _ => Break UnexpectedError st
            end
        end
  end.

(** The locals right after line 105, when the iteration gets that far: the
    page was accepted and its results were appended, and the test of line
    108 has not been made yet. *)
Definition after_extend (st : loop_state) : option loop_state :=
  match http (page_request endpoint hd (page_number st)) with
  | TransportError => None
  | Response status_code body =>
      if negb (status_code =? 200)%Z && raise_for_status status_code then None
      else
        match body with
        | None => None
        | Some data =>
            match dict_get data "Results" (JArr []),
                  dict_get data "TotalNumberOfResults" (JInt 0) with
            | Returned results, Returned total =>
                match py_len results with
                | Raised _ => None
                | Returned _ =>
                    if negb (truthy results) then None
                    else
                      match py_iter results with
                      | Raised _ => None
                      | Returned items =>
                          Some {| all_recordings := all_recordings st ++ items;
                                  page_number := page_number st;
                                  total_recordings := Some total |}
                      end
                end
            | _, _ => None
            end
        end
  end.

(** The loop, with the requests issued so far.  [None]: still running when
    the fuel is spent. *)
Fixpoint loop (fuel : nat) (st : loop_state) (sent : list request)
  : option (break_reason * loop_state * list request) :=
  match fuel with
  | O => None
  | S fuel' =>
      let sent' := sent ++ [page_request endpoint hd (page_number st)] in
      match loop_body st with
      | Continue st' => loop fuel' st' sent'
      | Break why st' => Some (why, st', sent')
      end
  end.

(** Line 121 reads [total_recordings], then line 122 returns the list. *)
Definition after_loop (st : loop_state) : outcome (list json) :=
  match total_recordings st with
  | None => Raised (UnboundLocalError "total_recordings")
  | Some _ => Returned (all_recordings st)
  end.

End Fetch.

(** What a call of [get_folder_contents] did.  The caller receives
    [fetched] and nothing else; [client_after] is the object's state,
    [requests] the page requests issued, in order, and [left_by] the [break]
    that ended the loop ([None] when the loop was never entered). *)
Record fetch_run : Type := {
  fetched : outcome (list json);
  client_after : PanoptoClient;
  requests : list request;
  left_by : option break_reason
}.

Definition sessions_endpoint (c : PanoptoClient) (folder_id : string) : string :=
  (server_url c ++ "/Panopto/api/v1/folders/" ++ folder_id ++ "/sessions")%string.

Definition get_folder_contents (fuel : nat) (oauth : outcome string)
  (http : request -> http_result) (c : PanoptoClient) (folder_id : string)
  : option fetch_run :=
  match _get_headers oauth c with
  | (Raised e, c') =>
      Some {| fetched := Raised e; client_after := c'; requests := []; left_by := None |}
  | (Returned hd, c') =>
      match loop http (sessions_endpoint c' folder_id) hd fuel initial_state [] with
      | None => None
      | Some (why, st, sent) =>
          Some {| fetched := after_loop st; client_after := c';
                  requests := sent; left_by := Some why |}
      end
  end.

(** ** Formatting *)

(** [x <- e ;; k]: run [e]; an exception ends the computation. *)
Definition bind {A B : Type} (e : outcome A) (k : A -> outcome B) : outcome B :=
  match e with
  | Returned a => k a
  | Raised x => Raised x
  end.

Notation "x <- e ;; k" := (bind e (fun x => k))
  (at level 61, e at next level, right associativity).

(** [str(n)] for an int. *)
Definition str_int (z : Z) : string := NilZero.string_of_int (Z.to_int z).

Fixpoint zeros (n : nat) : string :=
  match n with
  | O => EmptyString
  | S k => String "0" (zeros k)
  end.

(** [format(n, '02d')]: the sign, then the digits padded with zeros on the
    left up to a total width of two. *)
Definition format_02d (z : Z) : string :=
  let sign := if (z <? 0)%Z then "-" else EmptyString in
  let digits := str_int (Z.abs z) in
  (sign ++ zeros (2 - String.length sign - String.length digits) ++ digits)%string.

(** What is taken from the Python runtime rather than modelled: [repr] of
    the values whose text Python builds with its own algorithms (finite
    floats, lists and dicts), and the three fields lines 156-158 compute for a
    finite float outside the range in which float arithmetic is exact there
    (a negative one, or one of 2^53 seconds or more). *)
Record python : Type := {
  py_repr : json -> string;
  py_float_duration : Q -> Z * Z * Z
}.

(** The floats on which [//] and [%] by 3600 and 60 are exact: from 0 up to
    2^53. *)
Definition float_exact (x : Q) : bool :=
  Qle_bool 0 x && negb (Qle_bool (inject_Z (2 ^ 53)) x).

(** [x % b] for a float [x] and a positive int [b], computed exactly. *)
Definition float_mod (x : Q) (b : Z) : Q :=
  (x - inject_Z b * inject_Z (Qfloor (x / inject_Z b)))%Q.

(** Lines 156-158: [int(d // 3600)], [int((d % 3600) // 60)], [int(d % 60)].
    An int (or a bool, which is an int) uses floor division.  A float from 0
    up to 2^53 does the same on its exact value, which is what Python
    computes there; for another finite float the fields are whatever the
    runtime's rounding gives.  A float that is not finite gives [nan] at
    [//], whose [int] raises [ValueError]; any other value raises
    [TypeError] at the first [//]. *)
Definition duration_fields (py : python) (duration_secs : json)
  : outcome (Z * Z * Z) :=
  match duration_secs with
  | JInt d => Returned (d / 3600, (d mod 3600) / 60, d mod 60)%Z
  | JBool b =>
      let d := (if b then 1 else 0)%Z in
      Returned (d / 3600, (d mod 3600) / 60, d mod 60)%Z
  | JFloat x =>
      if float_exact x
      then Returned (Qfloor (x / inject_Z 3600),
                     Qfloor (float_mod x 3600 / inject_Z 60),
                     Qfloor (float_mod x 60))
      else Returned (py_float_duration py x)
  | JNonFinite _ => Raised ValueError
  | _ => Raised TypeError
  end.

(** Line 159. *)
Definition format_duration (hms : Z * Z * Z) : string :=
  let '(hours, minutes, seconds) := hms in
  (format_02d hours ++ ":" ++ format_02d minutes ++ ":" ++ format_02d seconds)%string.

(** [x[key]] with a str key: a dict looks the key up, nothing else the
    decoder builds accepts it. *)
Definition py_getitem (x : json) (key : string) : outcome json :=
  match x with
  | JObj kvs =>
      match assoc key kvs with
      | Some v => Returned v
      | None => Raised (KeyError key)
      end
  | _ => Raised TypeError
  end.

(** ** CSV *)

Definition fieldnames : list string :=
  ["Name"; "ID"; "Duration"; "Created"; "Folder"; "Views"; "Status"; "URL"].

Definition dquote : ascii := "034"%char.
Definition CR : ascii := "013"%char.
Definition LF : ascii := "010"%char.

(** With the excel dialect a field is quoted when it holds the delimiter,
    the quote character or a character of the line terminator. *)
Definition csv_special (c : ascii) : bool :=
  Ascii.eqb c "," || Ascii.eqb c dquote || Ascii.eqb c CR || Ascii.eqb c LF.

Fixpoint has_special (s : string) : bool :=
  match s with
  | EmptyString => false
  | String c rest => csv_special c || has_special rest
  end.

Fixpoint double_quotes (s : string) : string :=
  match s with
  | EmptyString => EmptyString
  | String c rest =>
      if Ascii.eqb c dquote then String dquote (String dquote (double_quotes rest))
      else String c (double_quotes rest)
  end.

Definition csv_field (s : string) : string :=
  if has_special s then String dquote (double_quotes s ++ String dquote EmptyString)
  else s.

Definition csv_record (fields : list string) : string :=
  (String.concat "," (map csv_field fields) ++ String CR (String LF EmptyString))%string.

(** A map from paths to file contents; opening a file for writing always
    succeeds. *)
Definition filesystem : Type := string -> option string.

Definition fs_write (path content : string) (fs : filesystem) : filesystem :=
  fun p => if String.eqb p path then Some content else fs p.

Section CsvExport.

(** The Python runtime; the development holds for any. *)
Variable py : python.

(** [str(x)], which is also what an f-string field without a format gives. *)
Definition py_str (v : json) : string :=
  match v with
  | JNull => "None"
  | JBool true => "True"
  | JBool false => "False"
  | JInt z => str_int z
  | JStr s => s
  | JNonFinite NaN => "nan"
  | JNonFinite PosInf => "inf"
  | JNonFinite NegInf => "-inf"
  | _ => py_repr py v
  end.

(** The text [csv.writer] makes of a value: [None] is the empty field. *)
Definition csv_text (v : json) : string :=
  match v with
  | JNull => EmptyString
  | _ => py_str v
  end.

(** [DictWriter.writerow]: the values in the order of [fieldnames], a
    missing key as the empty string. *)
Definition writerow (row : list (string * json)) : string :=
  csv_record
    (map (fun key => match assoc key row with
                     | Some v => csv_text v
                     | None => EmptyString
                     end) fieldnames).

(** [DictWriter.writeheader]. *)
Definition writeheader : string :=
  writerow (map (fun key => (key, JStr key)) fieldnames).

(** Lines 155-172: the dict handed to [writer.writerow] for one recording. *)
Definition recording_row (c : PanoptoClient) (recording : json)
  : outcome (list (string * json)) :=
  duration_secs <- dict_get recording "Duration" (JInt 0) ;;
  hms <- duration_fields py duration_secs ;;
  let duration := format_duration hms in
  id <- py_getitem recording "Id" ;;
  let recording_url :=
    (server_url c ++ "/Panopto/Pages/Viewer.aspx?id=" ++ py_str id)%string in
  name <- dict_get recording "Name" (JStr EmptyString) ;;
  id' <- dict_get recording "Id" (JStr EmptyString) ;;
  created <- dict_get recording "CreatedDate" (JStr EmptyString) ;;
  folder <- dict_get recording "ParentFolderId" (JStr EmptyString) ;;
  views <- dict_get recording "ViewerCount" (JInt 0) ;;
  state <- dict_get recording "State" (JStr EmptyString) ;;
  Returned [("Name", name); ("ID", id'); ("Duration", JStr duration);
            ("Created", created); ("Folder", folder); ("Views", views);
            ("Status", state); ("URL", JStr recording_url)].

(** The [for] loop of line 154 over the text written so far: the first
    recording that raises ends it. *)
Fixpoint write_rows (c : PanoptoClient) (recordings : list json) (written : string)
  : outcome unit * string :=
  match recordings with
  | [] => (Returned tt, written)
  | recording :: rest =>
      match recording_row c recording with
      | Raised e => (Raised e, written)
      | Returned row => write_rows c rest (written ++ writerow row)%string
      end
  end.

(** What a call of [export_recordings_to_csv] did. *)
Record export_run : Type := {
  exported : outcome unit;
  fs_after : filesystem;
  fetch : fetch_run
}.

(** The [with] block closes the file on every exit, so what was written
    before an exception is in the file; the exception is raised again by the
    handler of line 176. *)
Definition export_recordings_to_csv (fuel : nat) (oauth : outcome string)
  (http : request -> http_result) (c : PanoptoClient)
  (folder_id output_file : string) (fs : filesystem) : option export_run :=
  match get_folder_contents fuel oauth http c folder_id with
  | None => None
  | Some run =>
      match fetched run with
      | Raised e => Some {| exported := Raised e; fs_after := fs; fetch := run |}
      | Returned [] => Some {| exported := Returned tt; fs_after := fs; fetch := run |}
      | Returned recordings =>
          let '(result, text) := write_rows (client_after run) recordings writeheader in
          Some {| exported := result;
                  fs_after := fs_write output_file text fs;
                  fetch := run |}
      end
  end.

End CsvExport.

(** ** The loop read page by page *)

Section Iterations.

Variable http : request -> http_result.
Variable endpoint : string.
Variable hd : headers.

(** The state at the head of the next iteration after [k] iterations that
    all went on to the next page, starting from [st]; [None] when one of
    them left the loop. *)
Fixpoint advance (k : nat) (st : loop_state) : option loop_state :=
  match k with
  | O => Some st
  | S k' =>
      match loop_body http endpoint hd st with
      | Continue st' => advance k' st'
      | Break _ _ => None
      end
  end.

End Iterations.

(** The state an iteration ends in, however it ends. *)
Definition state_after (it : iteration) : loop_state :=
  match it with
  | Continue st => st
  | Break _ st => st
  end.

(** The requests for [k] consecutive pages from page [n] on. *)
Definition page_requests (endpoint : string) (hd : headers) (n k : nat)
  : list request :=
  map (page_request endpoint hd) (seq n k).

(** The recordings a page response contributes: the items of its [Results]
    when the body decodes to a dict. *)
Definition page_items (r : http_result) : list json :=
  match r with
  | Response _ (Some data) =>
      match dict_get data "Results" (JArr []) with
      | Returned results =>
          match py_iter results with
          | Returned items => items
          | Raised _ => []
          end
      | Raised _ => []
      end
  | _ => []
  end.

(** The recordings of pages [n], [n+1], ..., [n+k-1], in page order. *)
Definition accumulated (http : request -> http_result) (endpoint : string)
  (hd : headers) (n k : nat) : list json :=
  List.concat (map (fun i => page_items (http (page_request endpoint hd i))) (seq n k)).

(** The finite number a JSON value stands for in a comparison (a bool is 0
    or 1). *)
Definition number_value (v : json) : option Q :=
  match v with
  | JInt z => Some (inject_Z z)
  | JBool b => Some (inject_Z (if b then 1 else 0))
  | JFloat q => Some q
  | _ => None
  end.

(** The values Python compares with an int: the finite numbers and the
    floats that are not finite. *)
Definition is_number (v : json) : bool :=
  match v with
  | JInt _ | JBool _ | JFloat _ | JNonFinite _ => true
  | _ => false
  end.

(** A count of [n] has reached the total: the total is a finite number of
    at most [n], or minus infinity.  No count reaches [NaN] or infinity. *)
Definition reached (n : Z) (total : json) : bool :=
  match total with
  | JNonFinite NegInf => true
  | _ =>
      match number_value total with
      | Some q => Qle_bool q (inject_Z n)
      | None => false
      end
  end.

(** The values that have a length: str, list and dict. *)
Definition has_len (v : json) : bool :=
  match v with
  | JStr _ | JArr _ | JObj _ => true
  | _ => false
  end.

(** A page the loop accepts: the status is not one [raise_for_status]
    rejects and the body decodes to a dict; its [Results] and its
    [TotalNumberOfResults], with the defaults of lines 94-95. *)
Definition accepted_page (r : http_result) : option (json * json) :=
  match r with
  | Response status_code (Some (JObj kvs)) =>
      if negb (status_code =? 200)%Z && raise_for_status status_code then None
      else Some (match assoc "Results" kvs with Some v => v | None => JArr [] end,
                 match assoc "TotalNumberOfResults" kvs with
                 | Some v => v
                 | None => JInt 0
                 end)
  | _ => None
  end.

(** First stop condition: the page returns no results, its [Results] being
    an empty list (or str, or dict). *)
Definition results_empty (r : http_result) : bool :=
  match accepted_page r with
  | Some (results, _) => has_len results && negb (truthy results)
  | None => false
  end.

(** Second stop condition: with the results of this page, the count of
    accumulated recordings has reached the declared total. *)
Definition total_reached (acc : list json) (r : http_result) : bool :=
  match accepted_page r with
  | Some (results, total) =>
      has_len results && truthy results
      && match py_iter results with
         | Returned items => reached (Z.of_nat (List.length (acc ++ items))) total
         | Raised _ => false
         end
  | None => false
  end.

(** The page is in error: it is not accepted, or its [Results] has no
    length (null, a number), or it has results and its total is not a
    number. *)
Definition page_error (r : http_result) : bool :=
  match accepted_page r with
  | Some (results, total) =>
      negb (has_len results) || (truthy results && negb (is_number total))
  | None => true
  end.

Definition page_stops (acc : list json) (r : http_result) : bool :=
  results_empty r || total_reached acc r || page_error r.


(** A page that fails: the request raised, the status is one
    [raise_for_status] rejects, or the body is not JSON. *)
Definition page_failed (r : http_result) : bool :=
  match r with
  | TransportError => true
  | Response status_code body =>
      (negb (status_code =? 200)%Z && raise_for_status status_code)
      || match body with None => true | Some _ => false end
  end.

(** A page the server rejects or garbles: the status is a 4xx or 5xx code,
    or the body is not JSON. *)
Definition page_rejected (r : http_result) : bool :=
  match r with
  | TransportError => false
  | Response status_code body =>
      raise_for_status status_code
      || match body with None => true | Some _ => false end
  end.

(** The number of pages of [size] that hold [n] items. *)
Definition ceil_div (n size : nat) : nat := (n + size - 1) / size.

(** ** Columns *)

(** The decimal digit of a number below ten. *)
Definition digit (n : Z) : ascii := ascii_of_nat (48 + Z.to_nat n).

(** A number below a hundred, written with its two digits. *)
Definition two_digits (n : Z) : string :=
  String (digit (n / 10)) (String (digit (n mod 10)) EmptyString).

(** The viewer address in the words of the specification:
    [<server>/Viewer?id=<ID>]. *)
Definition viewer_url_as_specified (server id : string) : string :=
  (server ++ "/Viewer?id=" ++ id)%string.

(** ** Servers and examples *)

(** Page [n] (counted from 1) of a folder cut into pages of [size]. *)
Definition folder_page (recs : list json) (n size : nat) : list json :=
  firstn size (skipn ((n - 1) * size) recs).

(** A well-behaved server for a folder holding [recs]: every page request
    is answered with status 200, the page asked for, and the size of the
    folder as [TotalNumberOfResults]. *)
Definition folder_server (recs : list json) : request -> http_result :=
  fun rq =>
    let p := req_params rq in
    Response 200
      (Some (JObj [("Results", JArr (folder_page recs (pageNumber p) (pageSize p)));
                   ("TotalNumberOfResults", JInt (Z.of_nat (List.length recs)))])).

(** A server given page by page: [pages n] answers the request for page [n]. *)
Definition paged (pages : nat -> http_result) : request -> http_result :=
  fun rq => pages (pageNumber (req_params rq)).

(** A recording with the given identifier and name. *)
Definition recording (id name : string) : json :=
  JObj [("Id", JStr id); ("Name", JStr name)].

(** [n] recordings, numbered downwards from [n]. *)
Fixpoint recordings_upto (n : nat) : list json :=
  match n with
  | O => []
  | S k => recording (str_int (Z.of_nat n)) "session" :: recordings_upto k
  end.

(** The JSON of a well-formed page. *)
Definition page_body (items : list json) (total : Z) : json :=
  JObj [("Results", JArr items); ("TotalNumberOfResults", JInt total)].

(** A server whose first page holds one recording of two, and whose other
    pages all answer [second]. *)
Definition two_pages (second : http_result) : request -> http_result :=
  paged (fun n =>
           match n with
           | 1 => Response 200 (Some (page_body [recording "1" "first"] 2))
           | _ => second
           end).

(** A server that always has one more recording than it has delivered. *)
Definition growing_server : request -> http_result :=
  paged (fun n =>
           Response 200
             (Some (page_body [recording (str_int (Z.of_nat n)) "session"]
                      (Z.of_nat n + 1)))).

(** A server that announces one recording and delivers two. *)
Definition over_delivering_server : request -> http_result :=
  paged (fun _ =>
           Response 200
             (Some (page_body [recording "1" "first"; recording "2" "second"] 1))).

(** A page whose [Results] is null, and the server that answers every
    request with it. *)
Definition null_results_page : http_result :=
  Response 200 (Some (JObj [("Results", JNull); ("TotalNumberOfResults", JInt 5)])).

Definition null_results_server : request -> http_result :=
  paged (fun _ => null_results_page).

(** A server whose every page holds one recording and gives [NaN] as the
    total. *)
Definition nan_total_server : request -> http_result :=
  paged (fun _ =>
           Response 200
             (Some (JObj [("Results", JArr [recording "1" "first"]);
                          ("TotalNumberOfResults", JNonFinite NaN)]))).

(** [http], except that page [n] is an empty page: the server has nothing
    more to give. *)
Definition with_empty_page (http : request -> http_result) (n : nat) (total : Z)
  : request -> http_result :=
  fun rq =>
    if pageNumber (req_params rq) =? n then Response 200 (Some (page_body [] total))
    else http rq.

(** A server that answers every request with this status and no JSON. *)
Definition always_status (status_code : Z) : request -> http_result :=
  fun _ => Response status_code None.

(** The client and the token of the examples. *)
Definition example_client : PanoptoClient := __init__ "https://panopto.example/".
Definition example_oauth : outcome string := Returned "token".

(** Stands in for the Python runtime in the closed examples, none of which
    prints a float, a list or a dict or has a float duration out of range. *)
Definition example_python : python :=
  {| py_repr := fun _ => "<repr>"; py_float_duration := fun _ => (0, 0, 0)%Z |}.

(** A filesystem with no file. *)
Definition empty_fs : filesystem := fun _ => None.

(** A recording of one hour, two minutes and five seconds, and the row
    written for it by [example_client]. *)
Definition example_recording : list (string * json) :=
  [("Id", JStr "abc"); ("Name", JStr "Lecture 1"); ("Duration", JInt 3725)].

Definition example_row : list (string * json) :=
  [("Name", JStr "Lecture 1"); ("ID", JStr "abc"); ("Duration", JStr "01:02:05");
   ("Created", JStr EmptyString); ("Folder", JStr EmptyString); ("Views", JInt 0);
   ("Status", JStr EmptyString);
   ("URL", JStr "https://panopto.example/Panopto/Pages/Viewer.aspx?id=abc")].

(** A recording without identifier. *)
Definition nameless_recording : json := JObj [("Name", JStr "Lecture 1")].

(** ** Reading a CSV file back *)

(** The cell texts of a row, in the order of the columns. *)
Definition row_cells (py : python) (row : list (string * json))
  : list string :=
  map (fun key => match assoc key row with
                  | Some v => csv_text py v
                  | None => EmptyString
                  end) fieldnames.

(** The lines written for a list of rows. *)
Definition rows_text (py : python) (rows : list (list (string * json)))
  : string :=
  fold_right String.append EmptyString (map (writerow py) rows).

(** Where a reader of the excel dialect stands: in a field written bare, in
    a quoted field, or just after a quote met inside a quoted field. *)
Inductive reader_state : Type := Unquoted | Quoted | QuoteSeen.

(** A reader for the excel dialect, over a file opened with [newline='']:
    fields are separated by commas and records end with CR LF; a field that
    starts with a quote runs to its closing quote, two quotes in it standing
    for one.  [cur] is the field being read, [fields] the fields of the
    record being read, [records] the records read so far; [None] when the
    text is not well-formed. *)
Fixpoint read_csv (s : string) (st : reader_state) (cur : string)
  (fields : list string) (records : list (list string))
  : option (list (list string)) :=
  match s with
  | EmptyString =>
      match st, cur, fields with
      | Unquoted, EmptyString, [] => Some records
      | _, _, _ => None
      end
  | String c rest =>
      let end_of_record :=
        match rest with
        | String c' rest' =>
            if Ascii.eqb c' LF
            then read_csv rest' Unquoted EmptyString [] (records ++ [fields ++ [cur]])
            else None
        | EmptyString => None
        end in
      match st with
      | Unquoted =>
          if Ascii.eqb c dquote then
            match cur with
            | EmptyString => read_csv rest Quoted EmptyString fields records
            | _ => None
            end
          else if Ascii.eqb c "," then
            read_csv rest Unquoted EmptyString (fields ++ [cur]) records
          else if Ascii.eqb c CR then end_of_record
          else if Ascii.eqb c LF then None
          else read_csv rest Unquoted (cur ++ String c EmptyString) fields records
      | Quoted =>
          if Ascii.eqb c dquote then read_csv rest QuoteSeen cur fields records
          else read_csv rest Quoted (cur ++ String c EmptyString) fields records
      | QuoteSeen =>
          if Ascii.eqb c dquote then
            read_csv rest Quoted (cur ++ String dquote EmptyString) fields records
          else if Ascii.eqb c "," then
            read_csv rest Unquoted EmptyString (fields ++ [cur]) records
          else if Ascii.eqb c CR then end_of_record
          else None
      end
  end.

(** The records of a whole file. *)
Definition read_file (text : string) : option (list (list string)) :=
  read_csv text Unquoted EmptyString [] [].

(** ** More examples *)

(** [n] slashes. *)
Fixpoint slashes (n : nat) : string :=
  match n with
  | O => EmptyString
  | S k => String "/" (slashes k)
  end.

(** The last character of a string. *)
Fixpoint last_char (s : string) : option ascii :=
  match s with
  | EmptyString => None
  | String c EmptyString => Some c
  | String _ rest => last_char rest
  end.

(** The client of the examples once it holds its token, and its headers. *)
Definition example_client_authenticated : PanoptoClient :=
  {| server_url := "https://panopto.example"; access_token := Some "token" |}.

Definition example_headers : headers :=
  {| Authorization := "Bearer token"; Content_Type := "application/json" |}.


(** A recording that lasts a little under 3726 seconds. *)
Definition example_float_recording : list (string * json) :=
  [("Id", JStr "abc"); ("Name", JStr "Lecture 1"); ("Duration", JFloat (37259 # 10))].

(** A recording that has its identifier and nothing else, and its row. *)
Definition bare_recording : list (string * json) := [("Id", JStr "abc")].

Definition bare_row : list (string * json) :=
  [("Name", JStr EmptyString); ("ID", JStr "abc"); ("Duration", JStr "00:00:00");
   ("Created", JStr EmptyString); ("Folder", JStr EmptyString); ("Views", JInt 0);
   ("Status", JStr EmptyString);
   ("URL", JStr "https://panopto.example/Panopto/Pages/Viewer.aspx?id=abc")].

(** The run of [example_client] against [two_pages (Response 500 None)]:
    one recording from page 1, then the failure of page 2. *)
Definition example_partial_run : fetch_run :=
  {| fetched := Returned [recording "1" "first"];
     client_after := example_client_authenticated;
     requests :=
       page_requests "https://panopto.example/Panopto/api/v1/folders/folder/sessions"
         example_headers 1 2;
     left_by := Some RequestError |}.

(** A recording that lasts [d] seconds. *)
Definition recording_lasting (d : Z) : json :=
  JObj [("Id", JStr "abc"); ("Duration", JInt d)].

(** The Duration column written for a recording, when it gets a row. *)
Definition duration_written (py : python) (c : PanoptoClient) (recording : json)
  : option json :=
  match recording_row py c recording with
  | Returned row => assoc "Duration" row
  | Raised _ => None
  end.

(** The rows of the recordings before the first that gets none. *)
Fixpoint rows_written (py : python) (c : PanoptoClient) (recordings : list json)
  : list (list (string * json)) :=
  match recordings with
  | [] => []
  | recording :: rest =>
      match recording_row py c recording with
      | Returned row => row :: rows_written py c rest
      | Raised _ => []
      end
  end.

(** A client for the same server that holds a token from an earlier call. *)
Definition cached_client : PanoptoClient :=
  {| server_url := "https://panopto.example"; access_token := Some "cached" |}.

(** A filesystem in which the output file is there already. *)
Definition old_file_fs : filesystem :=
  fs_write "recordings.csv" "left over from an earlier export" empty_fs.

(** The exports of a folder holding [example_recording], by [example_client]
    on an empty filesystem and by [cached_client] over the old file. *)
Definition example_export (c : PanoptoClient) (token : string) (fs : filesystem)
  : export_run :=
  {| exported := Returned tt;
     fs_after :=
       fs_write "recordings.csv"
         (writeheader example_python ++ writerow example_python example_row)%string fs;
     fetch :=
       {| fetched := Returned [JObj example_recording];
          client_after := c;
          requests :=
            [page_request
               "https://panopto.example/Panopto/api/v1/folders/folder/sessions"
               {| Authorization := ("Bearer " ++ token)%string;
                  Content_Type := "application/json" |} 1];
          left_by := Some RetrievedAll |} |}.

(** * Properties *)

(** ** One iteration *)

Section IterationFacts.

Variable http : request -> http_result.
Variable endpoint : string.
Variable hd : headers.

(** An iteration goes on to the next page only after an accepted, decoded
    page whose items were appended and left the count below the total. *)
Lemma continue_inv (st st' : loop_state) :
  loop_body http endpoint hd st = Continue st' ->
  exists status_code data results total items,
    http (page_request endpoint hd (page_number st)) = Response status_code (Some data)
    /\ dict_get data "Results" (JArr []) = Returned results
    /\ dict_get data "TotalNumberOfResults" (JInt 0) = Returned total
    /\ truthy results = true
    /\ py_iter results = Returned items
    /\ int_ge (Z.of_nat (List.length (all_recordings st ++ items))) total = Returned false
    /\ st' = {| all_recordings := all_recordings st ++ items;
                page_number := S (page_number st);
                total_recordings := Some total |}.
Proof.
  unfold loop_body.
  destruct (http (page_request endpoint hd (page_number st)))
    as [|status_code [data|]]; try discriminate.
  all: destruct (negb (status_code =? 200)%Z && raise_for_status status_code);
    try discriminate.
  destruct (dict_get data "Results" (JArr [])) as [results|] eqn:Hres;
    [|discriminate].
  destruct (dict_get data "TotalNumberOfResults" (JInt 0)) as [total|] eqn:Htot;
    [|discriminate].
  destruct (py_len results) as [n|]; [|discriminate].
  destruct (truthy results) eqn:Htruthy; cbn [negb]; [|discriminate].
  destruct (py_iter results) as [items|] eqn:Hiter; [|discriminate].
  cbn [all_recordings page_number].
  destruct (int_ge _ total) as [[|]|] eqn:Hge; try discriminate.
  intros [= <-].
  exists status_code, data, results, total, items.
  repeat split; assumption.
Qed.

(** Closes a case in which the iteration broke without appending. *)
Local Ltac nothing_appended :=
  intros [= _ <-]; exists []; cbn [all_recordings]; now rewrite app_nil_r.

(** An iteration never touches what was accumulated before it. *)
Lemma break_keeps_prefix (st st' : loop_state) (why : break_reason) :
  loop_body http endpoint hd st = Break why st' ->
  exists items, all_recordings st' = all_recordings st ++ items.
Proof.
  unfold loop_body.
  destruct (http (page_request endpoint hd (page_number st)))
    as [|status_code [data|]]; [nothing_appended| |].
  - destruct (negb (status_code =? 200)%Z && raise_for_status status_code);
      [nothing_appended|].
    destruct (dict_get data "Results" (JArr [])) as [results|];
      destruct (dict_get data "TotalNumberOfResults" (JInt 0)) as [total|];
      try nothing_appended.
    destruct (py_len results) as [n|]; [|nothing_appended].
    destruct (negb (truthy results)); [nothing_appended|].
    destruct (py_iter results) as [items|]; [|nothing_appended].
    cbn [all_recordings].
    destruct (int_ge _ total) as [[|]|]; try discriminate;
      intros [= _ <-]; exists items; reflexivity.
  - destruct (negb (status_code =? 200)%Z && raise_for_status status_code);
      nothing_appended.
Qed.

(** A failed page leaves the loop with the state untouched. *)
Lemma failed_page_breaks (st : loop_state) :
  page_failed (http (page_request endpoint hd (page_number st))) = true ->
  exists why, loop_body http endpoint hd st = Break why st
              /\ (why = RequestError \/ why = JsonDecodeError).
Proof.
  unfold loop_body, page_failed.
  destruct (http (page_request endpoint hd (page_number st)))
    as [|status_code [data|]].
  - intros _. exists RequestError. auto.
  - rewrite orb_false_r. intros ->. exists RequestError. auto.
  - destruct (negb (status_code =? 200)%Z && raise_for_status status_code).
    + exists RequestError. auto.
    + exists JsonDecodeError. auto.
Qed.

End IterationFacts.

(** ** Several iterations *)

Section LoopFacts.

Variable http : request -> http_result.
Variable endpoint : string.
Variable hd : headers.

Lemma advance_succ (k : nat) : forall st,
  advance http endpoint hd (S k) st =
  match advance http endpoint hd k st with
  | Some st' =>
      match loop_body http endpoint hd st' with
      | Continue st'' => Some st''
      | Break _ _ => None
      end
  | None => None
  end.
Proof.
  induction k as [|k IH]; intros st.
  - cbn. destruct (loop_body http endpoint hd st); reflexivity.
  - change (advance http endpoint hd (S (S k)) st)
      with (match loop_body http endpoint hd st with
            | Continue st' => advance http endpoint hd (S k) st'
            | Break _ _ => None
            end).
    cbn [advance].
    destruct (loop_body http endpoint hd st) as [st1|]; [|reflexivity].
    apply IH.
Qed.

(** Pages are asked for one after the other. *)
Lemma advance_page_number (k : nat) : forall st st',
  advance http endpoint hd k st = Some st' ->
  page_number st' = page_number st + k.
Proof.
  induction k as [|k IH]; intros st st'; cbn [advance].
  - intros [= <-]. lia.
  - destruct (loop_body http endpoint hd st) as [st1|] eqn:Hbody; [|discriminate].
    intros Hadv. apply IH in Hadv.
    apply continue_inv in Hbody as (? & ? & ? & ? & ? & _ & _ & _ & _ & _ & _ & ->).
    cbn in Hadv. lia.
Qed.

(** The accumulator after [k] pages is what it was, followed by the items
    of those pages in page order. *)
Lemma advance_accumulated (k : nat) : forall st st',
  advance http endpoint hd k st = Some st' ->
  all_recordings st' =
  all_recordings st ++ accumulated http endpoint hd (page_number st) k.
Proof.
  unfold accumulated.
  induction k as [|k IH]; intros st st'; cbn [advance seq map List.concat].
  - intros [= <-]. now rewrite app_nil_r.
  - destruct (loop_body http endpoint hd st) as [st1|] eqn:Hbody; [|discriminate].
    intros Hadv. rewrite (IH _ _ Hadv).
    apply continue_inv in Hbody
      as (sc & data & results & total & items & Hhttp & Hres & _ & _ & Hiter & _ & ->).
    cbn [all_recordings page_number].
    unfold page_items at 2. rewrite Hhttp, Hres, Hiter.
    now rewrite app_assoc.
Qed.

(** After at least one page the total is bound and still above the count. *)
Lemma advance_below_total (k : nat) : forall st st',
  advance http endpoint hd (S k) st = Some st' ->
  exists total,
    total_recordings st' = Some total
    /\ int_ge (Z.of_nat (List.length (all_recordings st'))) total = Returned false.
Proof.
  intros st st'. rewrite advance_succ.
  destruct (advance http endpoint hd k st) as [st1|]; [|discriminate].
  destruct (loop_body http endpoint hd st1) as [st2|] eqn:Hbody; [|discriminate].
  intros [= <-].
  apply continue_inv in Hbody
    as (sc & data & results & total & items & _ & _ & _ & _ & _ & Hge & ->).
  exists total. cbn. auto.
Qed.

(** Running the loop through [k] pages that all continue. *)
Lemma loop_advance (k : nat) : forall fuel st st' sent,
  advance http endpoint hd k st = Some st' ->
  loop http endpoint hd (k + fuel) st sent =
  loop http endpoint hd fuel st'
    (sent ++ page_requests endpoint hd (page_number st) k).
Proof.
  unfold page_requests.
  induction k as [|k IH]; intros fuel st st' sent; cbn [advance].
  - intros [= <-]. cbn. now rewrite app_nil_r.
  - destruct (loop_body http endpoint hd st) as [st1|] eqn:Hbody; [|discriminate].
    intros Hadv. cbn [Nat.add loop]. rewrite Hbody.
    rewrite (IH _ _ _ _ Hadv).
    apply continue_inv in Hbody as (? & ? & ? & ? & ? & _ & _ & _ & _ & _ & _ & ->).
    cbn [page_number seq map]. now rewrite <- app_assoc.
Qed.

(** The fuel runs out exactly when that many iterations all continued. *)
Lemma loop_out_of_fuel (fuel : nat) : forall st sent,
  loop http endpoint hd fuel st sent = None <->
  exists st', advance http endpoint hd fuel st = Some st'.
Proof.
  induction fuel as [|fuel IH]; intros st sent; cbn [loop advance].
  - split; [eauto | reflexivity].
  - destruct (loop_body http endpoint hd st) as [st1|why st1].
    + apply IH.
    + split; [discriminate | intros [? [=]]].
Qed.

(** The loop leaves at the first iteration that breaks: with [k] continuing
    pages before it, any fuel above [k] gives the same run, and it issued
    the requests for pages [1 .. k+1] of the starting page, each once. *)
Lemma loop_breaks_after (k : nat) (st st' st'' : loop_state)
    (why : break_reason) (sent : list request) (fuel : nat) :
  advance http endpoint hd k st = Some st' ->
  loop_body http endpoint hd st' = Break why st'' ->
  k < fuel ->
  loop http endpoint hd fuel st sent =
  Some (why, st'', sent ++ page_requests endpoint hd (page_number st) (S k)).
Proof.
  intros Hadv Hbody Hfuel.
  replace fuel with (k + S (fuel - S k)) by lia.
  rewrite (loop_advance _ _ _ _ _ Hadv). cbn [loop]. rewrite Hbody.
  rewrite (advance_page_number _ _ _ Hadv).
  unfold page_requests. rewrite seq_S, map_app, <- app_assoc. reflexivity.
Qed.

End LoopFacts.

(** ** A well-behaved server *)

Lemma firstn_add {A : Type} (a b : nat) : forall l : list A,
  firstn (a + b) l = firstn a l ++ firstn b (skipn a l).
Proof.
  induction a as [|a IH]; intros [|x l]; cbn; try reflexivity.
  - now rewrite firstn_nil.
  - now rewrite IH.
Qed.

Lemma ceil_div_bounds (n size : nat) :
  0 < size -> 0 < n ->
  (ceil_div n size - 1) * size < n /\ n <= ceil_div n size * size
  /\ 0 < ceil_div n size.
Proof.
  intros Hsize Hn. unfold ceil_div.
  pose proof (Nat.div_mod_eq (n + size - 1) size) as Hdm.
  pose proof (Nat.mod_upper_bound (n + size - 1) size ltac:(lia)) as Hlt.
  assert (0 < (n + size - 1) / size) as Hpos
    by (apply Nat.div_str_pos; lia).
  nia.
Qed.

Section WellBehaved.

Variable endpoint : string.
Variable hd : headers.

(** What one iteration does against [folder_server]. *)
Lemma folder_server_body (recs : list json) (st : loop_state) :
  loop_body (folder_server recs) endpoint hd st =
  let items := folder_page recs (page_number st) page_size in
  let total := JInt (Z.of_nat (List.length recs)) in
  match items with
  | [] => Break NoMoreRecordings
            {| all_recordings := all_recordings st;
               page_number := page_number st;
               total_recordings := Some total |}
  | _ :: _ =>
      if (Z.of_nat (List.length recs)
          <=? Z.of_nat (List.length (all_recordings st ++ items)))%Z
      then Break RetrievedAll
             {| all_recordings := all_recordings st ++ items;
                page_number := page_number st;
                total_recordings := Some total |}
      else Continue
             {| all_recordings := all_recordings st ++ items;
                page_number := S (page_number st);
                total_recordings := Some total |}
  end.
Proof.
  unfold loop_body, folder_server, page_request.
  cbn [req_params pageNumber pageSize].
  change (negb (200 =? 200)%Z && raise_for_status 200) with false.
  cbn [dict_get assoc String.eqb Ascii.eqb Bool.eqb].
  destruct (folder_page recs (page_number st) page_size) as [|x items];
    reflexivity.
Qed.

(** While pages remain, the loop has gathered the first [k] pages. *)
Lemma folder_server_advance (recs : list json) (k : nat) :
  k * page_size < List.length recs ->
  exists total,
    advance (folder_server recs) endpoint hd k initial_state =
    Some {| all_recordings := firstn (k * page_size) recs;
            page_number := S k;
            total_recordings := total |}.
Proof.
  induction k as [|k IH]; intros Hk.
  - exists None. reflexivity.
  - destruct IH as [total IH]; [lia|].
    rewrite advance_succ, IH, folder_server_body.
    cbn [page_number all_recordings]. cbv zeta.
    unfold folder_page. replace (S k - 1) with k by lia.
    rewrite <- firstn_add.
    assert (0 < List.length (firstn page_size (skipn (k * page_size) recs))) as Hne.
    { rewrite length_firstn, length_skipn. unfold page_size in *. lia. }
    destruct (firstn page_size (skipn (k * page_size) recs)) as [|x items] eqn:Hpage;
      [cbn in Hne; lia|].
    destruct (Z.leb_spec (Z.of_nat (List.length recs))
                (Z.of_nat (List.length (firstn (k * page_size + page_size) recs))))
      as [Hle|Hlt].
    + rewrite length_firstn in Hle. cbn [Nat.mul] in Hk. lia.
    + eexists. do 3 f_equal. cbn [Nat.mul]. lia.
Qed.

(** The whole loop on a folder of [N] recordings: one request for an empty
    folder, [ceil(N / page_size)] otherwise, and every recording gathered. *)
Lemma folder_server_loop (recs : list json) (fuel : nat) :
  Nat.max 1 (ceil_div (List.length recs) page_size) <= fuel ->
  loop (folder_server recs) endpoint hd fuel initial_state [] =
  Some (match recs with [] => NoMoreRecordings | _ :: _ => RetrievedAll end,
        {| all_recordings := recs;
           page_number := Nat.max 1 (ceil_div (List.length recs) page_size);
           total_recordings := Some (JInt (Z.of_nat (List.length recs))) |},
        page_requests endpoint hd 1
          (Nat.max 1 (ceil_div (List.length recs) page_size))).
Proof.
  intros Hfuel.
  destruct (Nat.eq_dec (List.length recs) 0) as [Hz|Hnz].
  - apply length_zero_iff_nil in Hz. subst recs.
    change (Nat.max 1 (ceil_div (List.length (@nil json)) page_size)) with 1 in *.
    destruct fuel as [|fuel]; [lia|].
    cbn [loop]. rewrite folder_server_body. reflexivity.
  - destruct (ceil_div_bounds (List.length recs) page_size) as (Hlo & Hhi & Hpos);
      [unfold page_size; lia | lia |].
    set (n := ceil_div (List.length recs) page_size) in *.
    replace (Nat.max 1 n) with (S (n - 1)) in * by lia.
    destruct (folder_server_advance recs (n - 1) Hlo) as [total Hadv].
    rewrite (loop_breaks_after _ _ _ _ _ _
               {| all_recordings := recs; page_number := S (n - 1);
                  total_recordings := Some (JInt (Z.of_nat (List.length recs))) |}
               RetrievedAll [] fuel Hadv).
    + destruct recs; [contradiction | reflexivity].
    + rewrite folder_server_body. cbn [page_number all_recordings]. cbv zeta.
      unfold folder_page. replace (S (n - 1) - 1) with (n - 1) by lia.
      rewrite <- firstn_add.
      replace ((n - 1) * page_size + page_size) with (n * page_size)
        by (unfold page_size; lia).
      rewrite (@firstn_all2 _ (n * page_size) recs Hhi).
      assert (0 < List.length (firstn page_size (skipn ((n - 1) * page_size) recs)))
        as Hne.
      { rewrite length_firstn, length_skipn. unfold page_size in *. lia. }
      destruct (firstn page_size (skipn ((n - 1) * page_size) recs)) as [|x items];
        [cbn in Hne; lia|].
      now rewrite Z.leb_refl.
    + lia.
Qed.

End WellBehaved.

(** ** [get_folder_contents] *)

(** Once the headers are there, the call is the loop followed by lines
    121-122. *)
Lemma get_folder_contents_authenticated (fuel : nat) (oauth : outcome string)
    (http : request -> http_result) (c c' : PanoptoClient) (hd : headers)
    (folder_id : string) :
  _get_headers oauth c = (Returned hd, c') ->
  get_folder_contents fuel oauth http c folder_id =
  match loop http (sessions_endpoint c' folder_id) hd fuel initial_state [] with
  | None => None
  | Some (why, st, sent) =>
      Some {| fetched := after_loop st; client_after := c';
              requests := sent; left_by := Some why |}
  end.
Proof.
  intros Hhd. unfold get_folder_contents. now rewrite Hhd.
Qed.

(** C1, as amended.  Against a well-behaved server for a folder of [N]
    recordings cut into pages of 100, [get_folder_contents] returns exactly
    the [N] recordings in the order of the server's pages, after the requests
    for pages [1 .. max 1 (ceil (N / 100))], each issued once with page size
    100 and sorted by creation date, descending: one request for an empty
    folder, [ceil (N / 100)] requests otherwise. *)
Theorem get_folder_contents_well_behaved (recs : list json) (fuel : nat)
    (oauth : outcome string) (c c' : PanoptoClient) (hd : headers)
    (folder_id : string) :
  _get_headers oauth c = (Returned hd, c') ->
  Nat.max 1 (ceil_div (List.length recs) page_size) <= fuel ->
  get_folder_contents fuel oauth (folder_server recs) c folder_id =
  Some {| fetched := Returned recs;
          client_after := c';
          requests :=
            page_requests (sessions_endpoint c' folder_id) hd 1
              (Nat.max 1 (ceil_div (List.length recs) page_size));
          left_by := Some (match recs with
                           | [] => NoMoreRecordings
                           | _ :: _ => RetrievedAll
                           end) |}.
Proof.
  intros Hhd Hfuel.
  rewrite (get_folder_contents_authenticated _ _ _ _ _ _ _ Hhd).
  now rewrite folder_server_loop.
Qed.

(** A folder of 250 recordings is fetched whole with three requests. *)
Lemma get_folder_contents_well_behaved_witness :
  option_map (fun run => (fetched run,
                          map (fun rq => pageNumber (req_params rq)) (requests run)))
    (get_folder_contents 3 example_oauth (folder_server (recordings_upto 250))
       example_client "folder")
  = Some (Returned (recordings_upto 250), [1; 2; 3]).
Proof.
  rewrite (get_folder_contents_well_behaved (recordings_upto 250) 3
             example_oauth example_client
             {| server_url := "https://panopto.example";
                access_token := Some "token" |}
             {| Authorization := "Bearer token";
                Content_Type := "application/json" |}
             "folder").
  - reflexivity.
  - reflexivity.
  - vm_compute. lia.
Defined.

(** C1 as stated fails on the empty folder: [ceil (0 / 100)] is 0, yet the
    loop has to ask for page 1 to learn that the folder is empty. *)
Lemma empty_folder_takes_one_request :
  option_map (fun run => (fetched run, List.length (requests run)))
    (get_folder_contents 1 example_oauth (folder_server []) example_client "folder")
  = Some (Returned [], 1)
  /\ ceil_div (List.length (@nil json)) page_size = 0.
Proof.
  split; reflexivity.
Qed.

(** Without a token the call raises before any request is made. *)
Lemma authentication_failure_raises (fuel : nat) (e : exn)
    (http : request -> http_result) (url folder_id : string) :
  get_folder_contents fuel (Raised e) http (__init__ url) folder_id =
  Some {| fetched := Raised e; client_after := __init__ url;
          requests := []; left_by := None |}.
Proof.
  reflexivity.
Qed.

(** ** The count stays below the total while the loop runs *)

(** A failed [>=] means the total is a finite number above the count, or
    infinity, or [NaN]. *)
Lemma int_ge_false_lt (n : Z) (t : json) :
  int_ge n t = Returned false ->
  (exists q, number_value t = Some q /\ (inject_Z n < q)%Q)
  \/ t = JNonFinite PosInf \/ t = JNonFinite NaN.
Proof.
  destruct t as [|b|z|q|[| |]|s|xs|kvs]; cbn [int_ge number_value];
    try discriminate; auto.
  - intros [= H]. left. eexists. split; [reflexivity|].
    rewrite <- Zlt_Qlt. lia.
  - intros [= H]. left. eexists. split; [reflexivity|].
    rewrite <- Zlt_Qlt. lia.
  - intros [= H]. left. exists q. split; [reflexivity|].
    apply Qnot_le_lt. intros Hle. apply Qle_bool_iff in Hle. congruence.
Qed.

Lemma reached_int_ge (n : Z) (t : json) :
  reached n t = true -> int_ge n t = Returned true.
Proof.
  destruct t as [|b|z|q|[| |]|s|xs|kvs]; cbn [reached number_value int_ge];
    try discriminate; try reflexivity.
  all: unfold Qle_bool; cbn [Qnum Qden inject_Z]; rewrite ?Z.mul_1_r;
    now intros ->.
Qed.

(** Once the count has met or passed the total on line 105, the test of
    line 108 leaves the loop. *)
Lemma after_extend_reached (http : request -> http_result) (endpoint : string)
    (hd : headers) (st st2 : loop_state) (total : json) :
  after_extend http endpoint hd st = Some st2 ->
  total_recordings st2 = Some total ->
  reached (Z.of_nat (List.length (all_recordings st2))) total = true ->
  loop_body http endpoint hd st = Break RetrievedAll st2.
Proof.
  unfold after_extend, loop_body.
  destruct (http (page_request endpoint hd (page_number st)))
    as [|status_code [data|]]; try discriminate.
  2: { destruct (negb (status_code =? 200)%Z && raise_for_status status_code);
       discriminate. }
  destruct (negb (status_code =? 200)%Z && raise_for_status status_code);
    [discriminate|].
  destruct (dict_get data "Results" (JArr [])) as [results|]; [|discriminate].
  destruct (dict_get data "TotalNumberOfResults" (JInt 0)) as [total'|];
    [|discriminate].
  destruct (py_len results); [|discriminate].
  destruct (negb (truthy results)); [discriminate|].
  destruct (py_iter results) as [items|]; [|discriminate].
  intros [= <-]. cbn [total_recordings all_recordings]. intros [= <-] Hreached.
  now rewrite (reached_int_ge _ _ Hreached).
Qed.

(** C7, as amended.  Each time the loop goes on to another page, that is at
    the head of every iteration after the first, the most recently reported
    [TotalNumberOfResults] is a number and the count of accumulated
    recordings is strictly below it, unless that total is [NaN], of which no
    bound holds; at the head of the first iteration nothing is accumulated
    and no total is known.  Inside an iteration the count can meet or pass
    the total when line 105 appends the page; the test of line 108 then
    leaves the loop by [break], with no further request. *)
Theorem count_below_total_between_pages (http : request -> http_result)
    (endpoint : string) (hd : headers) (k : nat) (st : loop_state) :
  advance http endpoint hd k initial_state = Some st ->
  match total_recordings st with
  | None => k = 0 /\ all_recordings st = []
  | Some total =>
      0 < k
      /\ ((exists q, number_value total = Some q
                     /\ (inject_Z (Z.of_nat (List.length (all_recordings st))) < q)%Q)
          \/ total = JNonFinite PosInf \/ total = JNonFinite NaN)
  end
  /\ (forall st2 total,
         after_extend http endpoint hd st = Some st2 ->
         total_recordings st2 = Some total ->
         reached (Z.of_nat (List.length (all_recordings st2))) total = true ->
         loop_body http endpoint hd st = Break RetrievedAll st2).
Proof.
  intros Hadv. split; [|apply after_extend_reached].
  destruct k as [|k].
  - injection Hadv as <-. split; reflexivity.
  - destruct (advance_below_total _ _ _ _ _ _ Hadv) as (total & -> & Hge).
    split; [lia | exact (int_ge_false_lt _ _ Hge)].
Qed.

(** Two pages into a folder of 250 recordings, 200 are accumulated. *)
Lemma count_below_total_between_pages_witness :
  0 < 2
  /\ ((exists q, number_value (JInt 250) = Some q
                 /\ (inject_Z (Z.of_nat (List.length (firstn 200 (recordings_upto 250))))
                     < q)%Q)
      \/ JInt 250 = JNonFinite PosInf \/ JInt 250 = JNonFinite NaN).
Proof.
  apply (proj1 (count_below_total_between_pages (folder_server (recordings_upto 250))
                  "endpoint" example_headers 2
                  {| all_recordings := firstn 200 (recordings_upto 250);
                     page_number := 3;
                     total_recordings := Some (JInt 250) |}
                  ltac:(vm_compute; reflexivity))).
Defined.

(** C7 as stated fails inside an iteration.  A page that brings two
    recordings while announcing one is appended whole on line 105, so the
    count (2) is above the total (1) before the test of line 108 ends the
    loop.  And a total of [NaN] lets the loop go on although no count is at
    most [NaN]. *)
Lemma count_exceeds_total_after_extend :
  (after_extend over_delivering_server "endpoint" example_headers initial_state
   = Some {| all_recordings := [recording "1" "first"; recording "2" "second"];
             page_number := 1;
             total_recordings := Some (JInt 1) |}
   /\ (1 < Z.of_nat (List.length [recording "1" "first"; recording "2" "second"]))%Z)
  /\ advance nan_total_server "endpoint" example_headers 1 initial_state
     = Some {| all_recordings := [recording "1" "first"];
               page_number := 2;
               total_recordings := Some (JNonFinite NaN) |}.
Proof.
  repeat split.
Qed.

(** The bound holds while the loop runs, not of what it returns: a page that
    brings more than the announced total is appended whole, and the loop then
    stops with more recordings than the total. *)
Lemma count_may_exceed_total_on_exit :
  option_map (fun run => (fetched run, left_by run))
    (get_folder_contents 1 example_oauth over_delivering_server example_client "folder")
  = Some (Returned [recording "1" "first"; recording "2" "second"], Some RetrievedAll).
Proof.
  reflexivity.
Qed.

(** ** A failure on the first page *)

(** When the first page fails, [total_recordings] was never bound and line
    121 raises instead of returning the empty list. *)
Lemma first_page_failure_raises (fuel : nat) (oauth : outcome string)
    (http : request -> http_result) (c c' : PanoptoClient) (hd : headers)
    (folder_id : string) :
  _get_headers oauth c = (Returned hd, c') ->
  page_failed (http (page_request (sessions_endpoint c' folder_id) hd 1)) = true ->
  option_map fetched (get_folder_contents (S fuel) oauth http c folder_id)
  = Some (Raised (UnboundLocalError "total_recordings")).
Proof.
  intros Hhd Hfail.
  rewrite (get_folder_contents_authenticated _ _ _ _ _ _ _ Hhd).
  cbn [loop].
  destruct (failed_page_breaks http _ hd initial_state Hfail) as (why & -> & _).
  reflexivity.
Qed.

(** C10 fails in the code.  With authentication done, a server that answers
    the first page with status 500 makes the loop catch the [HTTPError] and
    break, and then line 121 raises [UnboundLocalError] out of
    [get_folder_contents]. *)
Theorem first_page_status_500_propagates :
  option_map (fun run => (fetched run, left_by run, List.length (requests run)))
    (get_folder_contents 1 example_oauth (always_status 500) example_client "folder")
  = Some (Raised (UnboundLocalError "total_recordings"), Some RequestError, 1).
Proof.
  reflexivity.
Qed.

(** ** The loop against the stop conditions *)

Lemma int_ge_number (n : Z) (t : json) :
  int_ge n t = if is_number t then Returned (reached n t) else Raised TypeError.
Proof.
  destruct t as [|b|z|q|[| |]|s|xs|kvs];
    cbn [int_ge is_number reached number_value]; try reflexivity.
  all: unfold Qle_bool; cbn [Qnum Qden inject_Z]; now rewrite !Z.mul_1_r.
Qed.

Lemma has_len_py_len (v : json) :
  py_len v = if has_len v then Returned (List.length
                                           match py_iter v with
                                           | Returned items => items
                                           | Raised _ => []
                                           end)
             else Raised TypeError.
Proof.
  destruct v; cbn [py_len has_len py_iter]; try reflexivity.
  all: now rewrite length_map.
Qed.

Lemma has_len_py_iter (v : json) :
  has_len v = true -> exists items, py_iter v = Returned items.
Proof.
  destruct v; cbn [has_len py_iter]; try discriminate; eauto.
Qed.

Lemma dict_get_obj (kvs : list (string * json)) (key : string) (default : json) :
  dict_get (JObj kvs) key default =
  Returned (match assoc key kvs with Some v => v | None => default end).
Proof.
  unfold dict_get. destruct (assoc key kvs); reflexivity.
Qed.


Section StopConditions.

Variable http : request -> http_result.
Variable endpoint : string.
Variable hd : headers.

(** What an iteration does, read off the conditions: it goes on exactly
    when none holds, and each [break] answers to one of them. *)
Lemma loop_body_classify (st : loop_state) :
  let r := http (page_request endpoint hd (page_number st)) in
  let acc := all_recordings st in
  match loop_body http endpoint hd st with
  | Continue st' =>
      results_empty r = false /\ total_reached acc r = false /\ page_error r = false
  | Break why st' =>
      match why with
      | NoMoreRecordings => results_empty r = true
      | RetrievedAll => total_reached acc r = true
      | _ => page_error r = true
      end
  end.
Proof.
  cbv zeta.
  unfold loop_body, results_empty, total_reached, page_error, accepted_page.
  destruct (http (page_request endpoint hd (page_number st))) as [|status_code [data|]];
    [reflexivity| |].
  2: { destruct (negb (status_code =? 200)%Z && raise_for_status status_code);
       reflexivity. }
  destruct (negb (status_code =? 200)%Z && raise_for_status status_code).
  { destruct data; reflexivity. }
  destruct data as [| | | | | | |kvs]; try reflexivity.
  rewrite !dict_get_obj.
  generalize (match assoc "Results" kvs with Some v => v | None => JArr [] end).
  generalize (match assoc "TotalNumberOfResults" kvs with
              | Some v => v
              | None => JInt 0
              end).
  intros total results.
  rewrite has_len_py_len.
  destruct (has_len results) eqn:Hlen; cbn [negb andb orb]; [|reflexivity].
  destruct (truthy results); cbn [negb andb]; [|reflexivity].
  destruct (has_len_py_iter _ Hlen) as [items ->].
  cbn [all_recordings page_number]. rewrite int_ge_number.
  destruct (is_number total); cbn [negb]; [|reflexivity].
  destruct (reached _ total); repeat split; reflexivity.
Qed.

Lemma continue_no_stop (st st' : loop_state) :
  loop_body http endpoint hd st = Continue st' ->
  page_stops (all_recordings st)
    (http (page_request endpoint hd (page_number st))) = false.
Proof.
  intros Hbody. pose proof (loop_body_classify st) as Hc.
  rewrite Hbody in Hc. cbv zeta in Hc. unfold page_stops.
  destruct Hc as (-> & -> & ->). reflexivity.
Qed.

Lemma break_stop (st st' : loop_state) (why : break_reason) :
  loop_body http endpoint hd st = Break why st' ->
  page_stops (all_recordings st)
    (http (page_request endpoint hd (page_number st))) = true.
Proof.
  intros Hbody. pose proof (loop_body_classify st) as Hc.
  rewrite Hbody in Hc. cbv zeta in Hc. unfold page_stops.
  destruct why; rewrite Hc; rewrite ?orb_true_r; reflexivity.
Qed.


(** The first [k] pages all continue exactly when none of them meets a
    stop condition. *)
Lemma advance_no_stop (k : nat) :
  (exists st, advance http endpoint hd k initial_state = Some st) <->
  (forall j, 1 <= j <= k ->
     page_stops (accumulated http endpoint hd 1 (j - 1))
       (http (page_request endpoint hd j)) = false).
Proof.
  induction k as [|k IH].
  - split; [intros _ j Hj; lia | intros _; now exists initial_state].
  - rewrite advance_succ. split.
    + intros [st' Hadv] j Hj.
      destruct (advance http endpoint hd k initial_state) as [st|] eqn:Hk;
        [|discriminate].
      destruct (Nat.eq_dec j (S k)) as [->|Hne].
      * destruct (loop_body http endpoint hd st) as [st1|] eqn:Hbody; [|discriminate].
        apply continue_no_stop in Hbody.
        rewrite (advance_accumulated _ _ _ _ _ _ Hk) in Hbody.
        rewrite (advance_page_number _ _ _ _ _ _ Hk) in Hbody.
        cbn in Hbody. now replace (S k - 1) with k by lia.
      * apply IH; [eauto | lia].
    + intros Hall.
      destruct (proj2 IH) as [st Hk]; [intros j Hj; apply Hall; lia|].
      rewrite Hk.
      destruct (loop_body http endpoint hd st) as [st1|why st1] eqn:Hbody;
        [eauto|].
      apply break_stop in Hbody.
      rewrite (advance_accumulated _ _ _ _ _ _ Hk) in Hbody.
      rewrite (advance_page_number _ _ _ _ _ _ Hk) in Hbody.
      cbn in Hbody. specialize (Hall (S k) ltac:(lia)).
      replace (S k - 1) with k in Hall by lia. congruence.
Qed.


(** Without such a page the loop never stops. *)
Lemma loop_runs_forever :
  (forall n, 1 <= n ->
     page_stops (accumulated http endpoint hd 1 (n - 1))
       (http (page_request endpoint hd n)) = false) ->
  forall fuel, loop http endpoint hd fuel initial_state [] = None.
Proof.
  intros Hnever fuel. apply loop_out_of_fuel. apply advance_no_stop.
  intros j Hj. apply Hnever. lia.
Qed.

End StopConditions.

(** ** When [get_folder_contents] raises *)

Section Raising.

Variable http : request -> http_result.
Variable endpoint : string.
Variable hd : headers.

(** An accepted page binds [total_recordings]; a page that is not accepted
    leaves the locals alone. *)
Lemma iteration_total (st : loop_state) :
  total_recordings (state_after (loop_body http endpoint hd st)) =
  match accepted_page (http (page_request endpoint hd (page_number st))) with
  | Some (_, total) => Some total
  | None => total_recordings st
  end.
Proof.
  unfold loop_body, accepted_page.
  destruct (http (page_request endpoint hd (page_number st)))
    as [|status_code [data|]]; [reflexivity| |].
  2: { destruct (negb (status_code =? 200)%Z && raise_for_status status_code);
       reflexivity. }
  destruct (negb (status_code =? 200)%Z && raise_for_status status_code).
  { destruct data; reflexivity. }
  destruct data as [| | | | | | |kvs]; try reflexivity.
  rewrite !dict_get_obj.
  destruct (py_len _); [|reflexivity].
  destruct (negb (truthy _)); [reflexivity|].
  destruct (py_iter _) as [items|]; [|reflexivity].
  cbn [all_recordings].
  destruct (int_ge _ _) as [[|]|]; reflexivity.
Qed.

(** Once bound, [total_recordings] stays bound to the end of the loop. *)
Lemma loop_keeps_total_bound (fuel : nat) : forall st sent why st' sent',
  loop http endpoint hd fuel st sent = Some (why, st', sent') ->
  total_recordings st <> None ->
  total_recordings st' <> None.
Proof.
  induction fuel as [|fuel IH]; intros st sent why st' sent'; [discriminate|].
  cbn [loop]. intros Hloop Hbound.
  pose proof (iteration_total st) as Hit.
  assert (total_recordings (state_after (loop_body http endpoint hd st)) <> None)
    as Hnext.
  { rewrite Hit.
    destruct (accepted_page _) as [[results total]|]; [discriminate | exact Hbound]. }
  destruct (loop_body http endpoint hd st) as [st1|why1 st1]; cbn in Hnext.
  - exact (IH _ _ _ _ _ Hloop Hnext).
  - injection Hloop as _ <- _. exact Hnext.
Qed.

(** The loop ends with [total_recordings] unbound exactly when the first
    page is not accepted. *)
Lemma loop_total_unbound (fuel : nat) (why : break_reason) (st' : loop_state)
    (sent' : list request) :
  loop http endpoint hd fuel initial_state [] = Some (why, st', sent') ->
  (total_recordings st' = None <->
   accepted_page (http (page_request endpoint hd 1)) = None).
Proof.
  destruct fuel as [|fuel]; [discriminate|].
  cbn [loop]. intros Hloop.
  pose proof (iteration_total initial_state) as Hit.
  cbn [initial_state page_number total_recordings] in Hit.
  destruct (accepted_page (http (page_request endpoint hd 1)))
    as [[results total]|] eqn:Hacc.
  - split; [|discriminate]. intros Hnone. exfalso.
    destruct (loop_body http endpoint hd initial_state) as [st1|why1 st1];
      cbn [state_after] in Hit.
    + apply (loop_keeps_total_bound _ _ _ _ _ _ Hloop); [congruence | exact Hnone].
    + injection Hloop as _ <- _. congruence.
  - split; [reflexivity|]. intros _.
    pose proof (loop_body_classify http endpoint hd initial_state) as Hc.
    cbv zeta in Hc. cbn [initial_state page_number all_recordings] in Hc.
    destruct (loop_body http endpoint hd initial_state) as [st1|why1 st1];
      cbn [state_after] in Hit.
    + destruct Hc as (_ & _ & Herr). unfold page_error in Herr.
      rewrite Hacc in Herr. discriminate.
    + injection Hloop as _ <- _. exact Hit.
Qed.

End Raising.

(** X16.  After authentication, [get_folder_contents] raises exactly when
    the answer to the first page is not accepted (the request failed, the
    status is 4xx or 5xx, the body is not JSON or not an object); it then
    raises [UnboundLocalError] from line 121, and it raises nothing else. *)
Lemma get_folder_contents_raises_iff (fuel : nat) (oauth : outcome string)
    (http : request -> http_result) (c c' : PanoptoClient) (hd : headers)
    (folder_id : string) (run : fetch_run) :
  _get_headers oauth c = (Returned hd, c') ->
  get_folder_contents fuel oauth http c folder_id = Some run ->
  (fetched run = Raised (UnboundLocalError "total_recordings") <->
   accepted_page (http (page_request (sessions_endpoint c' folder_id) hd 1)) = None)
  /\ (forall e, fetched run = Raised e -> e = UnboundLocalError "total_recordings").
Proof.
  intros Hhd. rewrite (get_folder_contents_authenticated _ _ _ _ _ _ _ Hhd).
  destruct (loop http (sessions_endpoint c' folder_id) hd fuel initial_state [])
    as [[[why st] sent]|] eqn:Hloop; [|discriminate].
  intros [= <-]. cbn [fetched].
  rewrite <- (loop_total_unbound _ _ _ _ _ _ _ Hloop).
  unfold after_loop. destruct (total_recordings st) as [total|].
  - split; [split; discriminate | discriminate].
  - split; [split; reflexivity | now intros e [= <-]].
Qed.

(** ** When the loop stops *)



(** Each page of [growing_server] brings one recording. *)
Lemma growing_server_accumulated (endpoint : string) (hd : headers) (k : nat) :
  forall n, List.length (accumulated growing_server endpoint hd n k) = k.
Proof.
  unfold accumulated.
  induction k as [|k IH]; intros n; [reflexivity|].
  cbn [seq map List.concat]. rewrite length_app, IH. reflexivity.
Qed.

Lemma growing_server_never_stops (endpoint : string) (hd : headers) (n : nat) :
  1 <= n ->
  page_stops (accumulated growing_server endpoint hd 1 (n - 1))
    (growing_server (page_request endpoint hd n)) = false.
Proof.
  intros Hn. unfold page_stops, results_empty, total_reached, page_error.
  change (accepted_page (growing_server (page_request endpoint hd n)))
    with (Some (JArr [recording (str_int (Z.of_nat n)) "session"],
                JInt (Z.of_nat n + 1))).
  cbn [truthy negb orb andb py_iter number_value has_len is_number reached].
  rewrite length_app, growing_server_accumulated.
  unfold Qle_bool. cbn [Qnum Qden inject_Z List.length]. rewrite !Z.mul_1_r.
  rewrite orb_false_r. apply Z.leb_gt. lia.
Qed.


(** A page whose [Results] is null is not an empty page: [len] raises on
    line 98, before the test of line 101, and the loop is left by the
    handler of line 117. *)
Lemma null_results_leave_by_error :
  option_map (fun run => (fetched run, left_by run, List.length (requests run)))
    (get_folder_contents 5 example_oauth null_results_server example_client "folder")
  = Some (Returned [], Some UnexpectedError, 1)
  /\ results_empty null_results_page = false
  /\ page_error null_results_page = true.
Proof.
  repeat split.
Qed.

(** ** A page that fails after the first *)

Section Agreement.

Variables http http' : request -> http_result.
Variable endpoint : string.
Variable hd : headers.

(** An iteration depends on the server only through the answer to its own
    request. *)
Lemma loop_body_ext (st : loop_state) :
  http (page_request endpoint hd (page_number st))
  = http' (page_request endpoint hd (page_number st)) ->
  loop_body http endpoint hd st = loop_body http' endpoint hd st.
Proof.
  unfold loop_body. intros ->. reflexivity.
Qed.

Lemma advance_ext (k : nat) : forall st,
  (forall j, page_number st <= j < page_number st + k ->
     http (page_request endpoint hd j) = http' (page_request endpoint hd j)) ->
  advance http endpoint hd k st = advance http' endpoint hd k st.
Proof.
  induction k as [|k IH]; intros st Hagree; [reflexivity|].
  cbn [advance]. rewrite <- loop_body_ext by (apply Hagree; lia).
  destruct (loop_body http endpoint hd st) as [st1|] eqn:Hbody; [|reflexivity].
  apply IH. intros j Hj. apply Hagree.
  apply continue_inv in Hbody as (? & ? & ? & ? & ? & _ & _ & _ & _ & _ & _ & ->).
  cbn in Hj. lia.
Qed.

End Agreement.

Lemma page_rejected_failed (r : http_result) :
  page_rejected r = true -> page_failed r = true.
Proof.
  destruct r as [|status_code body]; [reflexivity|].
  unfold page_rejected, page_failed, raise_for_status.
  destruct body; [|intros _; apply orb_true_r].
  rewrite !orb_false_r. intros H. rewrite H, andb_true_r.
  apply andb_prop in H as [H _]. apply Z.leb_le in H.
  apply negb_true_iff, Z.eqb_neq. lia.
Qed.

(** C3, as amended.  With the headers obtained: when pages [1 .. n-1]
    (with [n >= 2]) let the loop go on and page [n] answers with a 4xx or
    5xx status or with a body that is not JSON, the call issues the requests
    for pages [1 .. n] once each and no other, leaves the loop by the handler
    of a request error or of a JSON error, and returns exactly the recordings
    accumulated from pages [1 .. n-1].  What it returns is that bare list:
    a server that answers page [n] with an empty page instead makes the call
    end normally with the very same return value. *)
Theorem partial_result_after_rejected_page (n fuel : nat) (oauth : outcome string)
    (http : request -> http_result) (c c' : PanoptoClient) (hd : headers)
    (folder_id : string) :
  _get_headers oauth c = (Returned hd, c') ->
  2 <= n <= fuel ->
  (forall j, 1 <= j < n ->
     page_stops (accumulated http (sessions_endpoint c' folder_id) hd 1 (j - 1))
       (http (page_request (sessions_endpoint c' folder_id) hd j)) = false) ->
  page_rejected (http (page_request (sessions_endpoint c' folder_id) hd n)) = true ->
  (exists why,
      get_folder_contents fuel oauth http c folder_id =
      Some {| fetched :=
                Returned (accumulated http (sessions_endpoint c' folder_id) hd 1 (n - 1));
              client_after := c';
              requests := page_requests (sessions_endpoint c' folder_id) hd 1 n;
              left_by := Some why |}
      /\ (why = RequestError \/ why = JsonDecodeError))
  /\ (forall total,
        option_map (fun run => (fetched run, left_by run))
          (get_folder_contents fuel oauth (with_empty_page http n total) c folder_id)
        = Some (Returned (accumulated http (sessions_endpoint c' folder_id) hd 1 (n - 1)),
                Some NoMoreRecordings)).
Proof.
  intros Hhd [Hn Hfuel] Hbefore Hrej.
  set (endpoint := sessions_endpoint c' folder_id) in *.
  destruct (proj2 (advance_no_stop http endpoint hd (n - 1))) as [st Hadv];
    [intros j Hj; apply Hbefore; lia|].
  pose proof (advance_accumulated _ _ _ _ _ _ Hadv) as Hacc.
  pose proof (advance_page_number _ _ _ _ _ _ Hadv) as Hpage.
  cbn in Hacc, Hpage. replace (S (n - 1)) with n in Hpage by lia.
  assert (exists total, total_recordings st = Some total) as [t Ht].
  { replace (n - 1) with (S (n - 2)) in Hadv by lia.
    destruct (advance_below_total _ _ _ _ _ _ Hadv) as (t & Ht & _). eauto. }
  assert (after_loop st = Returned (accumulated http endpoint hd 1 (n - 1))) as Hafter.
  { unfold after_loop. now rewrite Ht, Hacc. }
  split.
  - destruct (failed_page_breaks http endpoint hd st) as (why & Hbody & Hwhy).
    { rewrite Hpage. now apply page_rejected_failed. }
    exists why. split; [|exact Hwhy].
    rewrite (get_folder_contents_authenticated _ _ _ _ _ _ _ Hhd).
    fold endpoint.
    rewrite (loop_breaks_after _ _ _ _ _ _ _ _ _ _ Hadv Hbody) by lia.
    rewrite Hafter. cbn [initial_state page_number app].
    now replace (S (n - 1)) with n by lia.
  - intros total.
    rewrite (get_folder_contents_authenticated _ _ _ _ _ _ _ Hhd).
    fold endpoint.
    assert (advance (with_empty_page http n total) endpoint hd (n - 1) initial_state
            = Some st) as Hadv'.
    { rewrite <- Hadv. symmetry. apply advance_ext.
      intros j Hj. cbn in Hj. unfold with_empty_page, page_request.
      cbn [req_params pageNumber].
      destruct (Nat.eqb_spec j n); [lia | reflexivity]. }
    assert (loop_body (with_empty_page http n total) endpoint hd st
            = Break NoMoreRecordings
                {| all_recordings := all_recordings st;
                   page_number := page_number st;
                   total_recordings := Some (JInt total) |}) as Hbody.
    { unfold loop_body, with_empty_page, page_request.
      cbn [req_params pageNumber]. rewrite Hpage, Nat.eqb_refl. reflexivity. }
    rewrite (loop_breaks_after _ _ _ _ _ _ _ _ _ _ Hadv' Hbody) by lia.
    cbn [option_map fetched left_by after_loop total_recordings all_recordings].
    now rewrite Hacc.
Qed.

(** Page 2 of 2 answers 500: the recording of page 1 is returned. *)
Lemma partial_result_after_rejected_page_witness :
  (exists why,
      get_folder_contents 2 example_oauth (two_pages (Response 500 None))
        example_client "folder" =
      Some {| fetched := Returned [recording "1" "first"];
              client_after := {| server_url := "https://panopto.example";
                                 access_token := Some "token" |};
              requests :=
                page_requests
                  "https://panopto.example/Panopto/api/v1/folders/folder/sessions"
                  {| Authorization := "Bearer token";
                     Content_Type := "application/json" |} 1 2;
              left_by := Some why |}
      /\ (why = RequestError \/ why = JsonDecodeError))
  /\ (forall total,
        option_map (fun run => (fetched run, left_by run))
          (get_folder_contents 2 example_oauth
             (with_empty_page (two_pages (Response 500 None)) 2 total)
             example_client "folder")
        = Some (Returned [recording "1" "first"], Some NoMoreRecordings)).
Proof.
  apply (partial_result_after_rejected_page 2 2 example_oauth
           (two_pages (Response 500 None)) example_client
           {| server_url := "https://panopto.example"; access_token := Some "token" |}
           {| Authorization := "Bearer token"; Content_Type := "application/json" |}
           "folder").
  - reflexivity.
  - lia.
  - intros j Hj. assert (j = 1) as -> by lia. reflexivity.
  - reflexivity.
Defined.

(** C3 as stated fails.  The list returned after a failure on page 2 is the
    list a complete fetch of a one-recording folder returns, and nothing
    else is handed to the caller; and a status outside 2xx that
    [raise_for_status] lets through (here 300) does not abort the fetch. *)
Lemma partial_result_not_flagged :
  (option_map fetched
     (get_folder_contents 2 example_oauth (two_pages (Response 500 None))
        example_client "folder")
   = Some (Returned [recording "1" "first"])
   /\ option_map fetched
        (get_folder_contents 2 example_oauth (folder_server [recording "1" "first"])
           example_client "folder")
      = Some (Returned [recording "1" "first"]))
  /\ option_map (fun run => (fetched run, left_by run))
       (get_folder_contents 2 example_oauth
          (two_pages (Response 300 (Some (page_body [recording "2" "second"] 2))))
          example_client "folder")
     = Some (Returned [recording "1" "first"; recording "2" "second"],
             Some RetrievedAll).
Proof.
  repeat split.
Qed.

(** ** Rows *)

Lemma format_02d_two_digits (n : Z) :
  (0 <= n < 100)%Z -> format_02d n = two_digits n.
Proof.
  intros Hn.
  assert (forallb (fun k => String.eqb (format_02d (Z.of_nat k)) (two_digits (Z.of_nat k)))
            (seq 0 100) = true) as Hall by (vm_compute; reflexivity).
  rewrite forallb_forall in Hall.
  specialize (Hall (Z.to_nat n)).
  rewrite Z2Nat.id in Hall by lia.
  apply String.eqb_eq, Hall, in_seq. lia.
Qed.

(** Floor division of a float by a positive int floors the exact quotient. *)
Lemma Qfloor_div_pos (x : Q) (b : positive) :
  Qfloor (x / inject_Z (Zpos b)) = (Qfloor x / Zpos b)%Z.
Proof.
  destruct x as [n d]. unfold Qdiv, Qinv, Qmult, Qfloor, inject_Z.
  cbn [Qnum Qden]. rewrite Z.mul_1_r, Pos2Z.inj_mul.
  symmetry. apply Z.div_div; lia.
Qed.

Lemma Qfloor_float_mod (x : Q) (b : positive) :
  Qfloor (float_mod x (Zpos b)) = (Qfloor x mod Zpos b)%Z.
Proof.
  unfold float_mod. rewrite Qfloor_div_pos.
  destruct x as [n d]. unfold Qminus, Qplus, Qopp, Qmult, Qfloor, inject_Z.
  cbn [Qnum Qden]. rewrite !Z.mul_1_r, ?Pos.mul_1_r.
  rewrite Z.mod_eq by lia.
  replace (n * 1 + - (Zpos b * (n / Zpos d / Zpos b) * 1) * Zpos d)%Z
    with (n + (- (Zpos b * (n / Zpos d / Zpos b))) * Zpos d)%Z by ring.
  rewrite Z.div_add by lia. ring.
Qed.

(** A float duration shows as its whole seconds: what is below a second is
    dropped. *)
Lemma float_duration_truncates (py : python) (x : Q) :
  float_exact x = true ->
  duration_fields py (JFloat x) = duration_fields py (JInt (Qfloor x)).
Proof.
  unfold duration_fields. intros ->.
  now rewrite (Qfloor_div_pos x 3600), (Qfloor_div_pos (float_mod x 3600) 60),
    (Qfloor_float_mod x 3600), (Qfloor_float_mod x 60).
Qed.

Section RowFacts.

Variable py : python.
Variable c : PanoptoClient.

(** The row of a recording that is a dict, field by field. *)
Lemma recording_row_dict (kvs : list (string * json)) :
  recording_row py c (JObj kvs) =
  hms <- duration_fields py (match assoc "Duration" kvs with
                             | Some v => v
                             | None => JInt 0
                             end) ;;
  id <- py_getitem (JObj kvs) "Id" ;;
  Returned
    [("Name", match assoc "Name" kvs with Some v => v | None => JStr EmptyString end);
     ("ID", match assoc "Id" kvs with Some v => v | None => JStr EmptyString end);
     ("Duration", JStr (format_duration hms));
     ("Created",
      match assoc "CreatedDate" kvs with Some v => v | None => JStr EmptyString end);
     ("Folder",
      match assoc "ParentFolderId" kvs with Some v => v | None => JStr EmptyString end);
     ("Views", match assoc "ViewerCount" kvs with Some v => v | None => JInt 0 end);
     ("Status", match assoc "State" kvs with Some v => v | None => JStr EmptyString end);
     ("URL",
      JStr (server_url c ++ "/Panopto/Pages/Viewer.aspx?id=" ++ py_str py id)%string)].
Proof.
  unfold recording_row. rewrite !dict_get_obj. reflexivity.
Qed.

(** Only a dict gets a row. *)
Lemma recording_row_returned (recording : json) (row : list (string * json)) :
  recording_row py c recording = Returned row ->
  exists kvs, recording = JObj kvs.
Proof.
  destruct recording; try discriminate. eauto.
Qed.

End RowFacts.

(** C4, as amended.  For a recording that gets a row: with an integer
    [Duration] of [d] seconds the Duration column is [d // 3600],
    [(d % 3600) // 60] and [d % 60], each formatted with [02d] and joined by
    colons; the minutes and the seconds are two digits for every [d], and the
    hours are two digits as well for a duration from 0 up to 100 hours; a
    float [Duration] of [x] seconds, from 0 up to 2^53, gives the column of
    the integer [floor x], what is below a second being dropped; a
    [Duration] of 3725 gives [01:02:05]; a recording without [Duration]
    gives [00:00:00]. *)
Theorem duration_column (py : python) (c : PanoptoClient)
    (kvs row : list (string * json)) :
  recording_row py c (JObj kvs) = Returned row ->
  (forall d, assoc "Duration" kvs = Some (JInt d) ->
     assoc "Duration" row
     = Some (JStr (format_02d (d / 3600) ++ ":" ++ two_digits ((d mod 3600) / 60)
                   ++ ":" ++ two_digits (d mod 60))%string)
     /\ ((0 <= d < 360000)%Z ->
         assoc "Duration" row
         = Some (JStr (two_digits (d / 3600) ++ ":" ++ two_digits ((d mod 3600) / 60)
                       ++ ":" ++ two_digits (d mod 60))%string)))
  /\ (forall x, assoc "Duration" kvs = Some (JFloat x) ->
       float_exact x = true ->
       assoc "Duration" row
       = Some (JStr (format_02d (Qfloor x / 3600) ++ ":"
                     ++ format_02d ((Qfloor x mod 3600) / 60)
                     ++ ":" ++ format_02d (Qfloor x mod 60))%string))
  /\ (assoc "Duration" kvs = Some (JInt 3725) ->
      assoc "Duration" row = Some (JStr "01:02:05"))
  /\ (assoc "Duration" kvs = None ->
      assoc "Duration" row = Some (JStr "00:00:00")).
Proof.
  rewrite recording_row_dict. intros Hrow.
  assert (forall x, assoc "Duration" kvs = Some (JFloat x) ->
          float_exact x = true ->
          assoc "Duration" row
          = Some (JStr (format_02d (Qfloor x / 3600) ++ ":"
                        ++ format_02d ((Qfloor x mod 3600) / 60)
                        ++ ":" ++ format_02d (Qfloor x mod 60))%string)) as Hfloat.
  { intros x Hd Hexact. rewrite Hd, (float_duration_truncates _ _ Hexact) in Hrow.
    cbn [duration_fields bind] in Hrow.
    destruct (py_getitem (JObj kvs) "Id") as [id|]; [|discriminate].
    cbn [bind] in Hrow. injection Hrow as <-. reflexivity. }
  assert (forall d,
             match assoc "Duration" kvs with Some v => v | None => JInt 0 end = JInt d ->
             assoc "Duration" row
             = Some (JStr (format_02d (d / 3600) ++ ":"
                           ++ format_02d ((d mod 3600) / 60)
                           ++ ":" ++ format_02d (d mod 60))%string)) as Hint.
  { intros d Hd. rewrite Hd in Hrow. cbn [duration_fields bind] in Hrow.
    destruct (py_getitem (JObj kvs) "Id") as [id|]; [|discriminate].
    cbn [bind] in Hrow. injection Hrow as <-. reflexivity. }
  split; [|split; [exact Hfloat|split]].
  - intros d Hd. rewrite Hd in Hint. specialize (Hint d eq_refl).
    pose proof (Z.mod_pos_bound d 60 ltac:(lia)) as Hs.
    pose proof (Z.mod_pos_bound d 3600 ltac:(lia)) as Hm.
    rewrite (format_02d_two_digits (d mod 60)) in Hint by lia.
    rewrite (format_02d_two_digits ((d mod 3600) / 60)) in Hint
      by (split; [apply Z.div_pos; lia | apply Z.div_lt_upper_bound; lia]).
    split; [exact Hint|].
    intros Hrange. rewrite Hint.
    rewrite format_02d_two_digits; [reflexivity|].
    split; [apply Z.div_pos; lia | apply Z.div_lt_upper_bound; lia].
  - intros Hd. rewrite Hd in Hint. exact (Hint 3725%Z eq_refl).
  - intros Hd. rewrite Hd in Hint. exact (Hint 0%Z eq_refl).
Qed.

(** The row of [example_recording] shows [01:02:05]. *)
Lemma duration_column_witness :
  assoc "Duration" example_row = Some (JStr "01:02:05").
Proof.
  exact (proj1 (proj2 (proj2 (duration_column example_python example_client
                                example_recording example_row eq_refl))) eq_refl).
Defined.

(** C4 as stated fails: the value is not always two digits each.  A
    recording of a hundred hours shows three digits for the hours, and a
    negative duration shows a sign; both differ from the two-digit
    rendering of their fields. *)
Lemma duration_beyond_two_digits :
  (duration_written example_python example_client (recording_lasting 360000)
   = Some (JStr "100:00:00")
   /\ String.eqb (format_02d (360000 / 3600)) (two_digits (360000 / 3600)) = false)
  /\ (duration_written example_python example_client (recording_lasting (-1))
      = Some (JStr "-1:59:59")
      /\ String.eqb (format_02d (-1 / 3600)) (two_digits (-1 / 3600)) = false).
Proof.
  repeat split.
Qed.

(** X12.  What is missing in a recording that has its identifier comes out
    as the default: empty text for the name, the state and the creation date, the
    number 0, written [0], for the views, and [00:00:00] for the duration. *)
Lemma missing_fields_default (py : python) (c : PanoptoClient)
    (kvs row : list (string * json)) :
  recording_row py c (JObj kvs) = Returned row ->
  (assoc "Name" kvs = None -> assoc "Name" row = Some (JStr EmptyString))
  /\ (assoc "ViewerCount" kvs = None ->
      assoc "Views" row = Some (JInt 0) /\ csv_text py (JInt 0) = "0")
  /\ (assoc "State" kvs = None -> assoc "Status" row = Some (JStr EmptyString))
  /\ (assoc "CreatedDate" kvs = None -> assoc "Created" row = Some (JStr EmptyString))
  /\ (assoc "Duration" kvs = None -> assoc "Duration" row = Some (JStr "00:00:00")).
Proof.
  rewrite recording_row_dict. intros Hrow.
  destruct (duration_fields _ _) as [hms|] eqn:Hd; [|discriminate].
  destruct (py_getitem (JObj kvs) "Id") as [id|]; [|discriminate].
  cbn [bind] in Hrow. injection Hrow as <-.
  split; [|split; [|split; [|split]]]; intros Hmiss; rewrite Hmiss in *.
  - reflexivity.
  - split; reflexivity.
  - reflexivity.
  - reflexivity.
  - cbn in Hd. injection Hd as <-. reflexivity.
Qed.

(** A recording without identifier never gets a row, whatever else it
    holds: line 161 subscripts ['Id'] before the defaults of lines 164-171
    are consulted. *)
Lemma missing_id_raises (py : python) (c : PanoptoClient)
    (kvs : list (string * json)) :
  assoc "Id" kvs = None ->
  exists e, recording_row py c (JObj kvs) = Raised e.
Proof.
  intros Hid. rewrite recording_row_dict.
  destruct (duration_fields _ _) as [hms|e]; [|exists e; reflexivity].
  exists (KeyError "Id"). cbn [bind py_getitem]. now rewrite Hid.
Qed.

(** C5 fails in the code.  A folder whose only recording lacks ['Id']:
    no row is built, the export raises [KeyError], and the file is left
    with the header line alone. *)
Theorem missing_id_aborts_export (py : python) :
  recording_row py example_client nameless_recording = Raised (KeyError "Id")
  /\ option_map (fun run => (exported run, fs_after run "recordings.csv"))
       (export_recordings_to_csv py 1 example_oauth
          (folder_server [nameless_recording]) example_client "folder"
          "recordings.csv" empty_fs)
     = Some (Raised (KeyError "Id"), Some (writeheader py)).
Proof.
  split; reflexivity.
Qed.

(** C8, as amended.  For every recording that gets a row, the URL column is
    the client's server address (the configured one without trailing
    slashes), then [/Panopto/Pages/Viewer.aspx?id=], then the text of the
    recording's ['Id']. *)
Theorem url_column (py : python) (c : PanoptoClient)
    (recording : json) (row : list (string * json)) :
  recording_row py c recording = Returned row ->
  exists id,
    py_getitem recording "Id" = Returned id
    /\ assoc "URL" row
       = Some (JStr (server_url c ++ "/Panopto/Pages/Viewer.aspx?id="
                     ++ py_str py id)%string).
Proof.
  intros Hrow.
  destruct (recording_row_returned _ _ _ _ Hrow) as [kvs ->].
  rewrite recording_row_dict in Hrow.
  destruct (duration_fields _ _) as [hms|]; [|discriminate].
  destruct (py_getitem (JObj kvs) "Id") as [id|]; [|discriminate].
  cbn [bind] in Hrow. injection Hrow as <-.
  exists id. split; reflexivity.
Qed.

Lemma url_column_witness :
  exists id,
    py_getitem (JObj example_recording) "Id" = Returned id
    /\ assoc "URL" example_row
       = Some (JStr (server_url example_client ++ "/Panopto/Pages/Viewer.aspx?id="
                     ++ py_str example_python id)%string).
Proof.
  exact (url_column example_python example_client (JObj example_recording)
           example_row eq_refl).
Defined.

(** C8 as stated fails: the address written is not
    [<server>/Viewer?id=<ID>]. *)
Lemma url_is_not_as_specified :
  option_map (assoc "URL")
    (match recording_row example_python example_client (JObj example_recording) with
     | Returned row => Some row
     | Raised _ => None
     end)
  = Some (Some (JStr "https://panopto.example/Panopto/Pages/Viewer.aspx?id=abc"))
  /\ String.eqb "https://panopto.example/Panopto/Pages/Viewer.aspx?id=abc"
       (viewer_url_as_specified (server_url example_client) "abc") = false.
Proof.
  split; reflexivity.
Qed.

(** ** The export *)

(** C6.  Whenever [get_folder_contents] returns no recording, as it does
    when the first page declares a total of 0 or has empty results,
    [export_recordings_to_csv] returns without raising and leaves the
    filesystem as it was: no file is written. *)
Theorem no_recordings_no_file (py : python) (fuel : nat)
    (oauth : outcome string) (http : request -> http_result) (c : PanoptoClient)
    (folder_id output_file : string) (fs : filesystem) (run : fetch_run) :
  get_folder_contents fuel oauth http c folder_id = Some run ->
  fetched run = Returned [] ->
  export_recordings_to_csv py fuel oauth http c folder_id output_file fs =
  Some {| exported := Returned tt; fs_after := fs; fetch := run |}.
Proof.
  intros Hrun Hnone. unfold export_recordings_to_csv.
  now rewrite Hrun, Hnone.
Qed.

(** An empty folder: the server answers page 1 with no results and a total
    of 0. *)
Lemma no_recordings_no_file_witness :
  option_map (fun run => (exported run, fs_after run "recordings.csv"))
    (export_recordings_to_csv example_python 1 example_oauth (folder_server [])
       example_client "folder" "recordings.csv" empty_fs)
  = Some (Returned tt, None).
Proof.
  rewrite (no_recordings_no_file example_python 1 example_oauth (folder_server [])
             example_client "folder" "recordings.csv" empty_fs
             {| fetched := Returned [];
                client_after := {| server_url := "https://panopto.example";
                                   access_token := Some "token" |};
                requests :=
                  [page_request
                     "https://panopto.example/Panopto/api/v1/folders/folder/sessions"
                     {| Authorization := "Bearer token";
                        Content_Type := "application/json" |} 1];
                left_by := Some NoMoreRecordings |}).
  - reflexivity.
  - reflexivity.
  - reflexivity.
Defined.

(** An accepted first page without results makes the fetch return the
    empty list after that one request. *)
Lemma empty_first_page_fetches_nothing (fuel : nat) (oauth : outcome string)
    (http : request -> http_result) (c c' : PanoptoClient) (hd : headers)
    (folder_id : string) :
  _get_headers oauth c = (Returned hd, c') ->
  results_empty (http (page_request (sessions_endpoint c' folder_id) hd 1)) = true ->
  option_map (fun run => (fetched run, requests run, left_by run))
    (get_folder_contents (S fuel) oauth http c folder_id)
  = Some (Returned [], [page_request (sessions_endpoint c' folder_id) hd 1],
          Some NoMoreRecordings).
Proof.
  intros Hhd Hempty.
  rewrite (get_folder_contents_authenticated _ _ _ _ _ _ _ Hhd).
  cbn [loop initial_state page_number app].
  unfold loop_body. cbn [initial_state page_number all_recordings].
  revert Hempty. unfold results_empty, accepted_page.
  destruct (http (page_request (sessions_endpoint c' folder_id) hd 1))
    as [|status_code [[| | | | | | |kvs]|]]; try discriminate.
  destruct (negb (status_code =? 200)%Z && raise_for_status status_code);
    [discriminate|].
  rewrite !dict_get_obj, has_len_py_len. intros Hempty.
  apply andb_prop in Hempty as [-> ->]. reflexivity.
Qed.

(** ** The file of the example *)

(** The file written for a folder holding [example_recording]: the header
    line and one line for the recording. *)
Lemma export_example_file (py : python) :
  option_map (fun run => (exported run, fs_after run "recordings.csv"))
    (export_recordings_to_csv py 1 example_oauth
       (folder_server [JObj example_recording])
       example_client "folder" "recordings.csv" empty_fs)
  = Some (Returned tt,
          Some (csv_record fieldnames
                ++ csv_record ["Lecture 1"; "abc"; "01:02:05"; EmptyString;
                               EmptyString; "0"; EmptyString;
                               "https://panopto.example/Panopto/Pages/Viewer.aspx?id=abc"]
               )%string).
Proof.
  reflexivity.
Qed.

(** * Further properties of the fetch *)

Section RunShape.

Variable http : request -> http_result.
Variable endpoint : string.
Variable hd : headers.

(** A finished loop went through some pages that continued and then one
    iteration that broke; its requests are those of these pages. *)
Lemma loop_inv (fuel : nat) : forall st sent why st' sent',
  loop http endpoint hd fuel st sent = Some (why, st', sent') ->
  exists k st_k,
    k < fuel
    /\ advance http endpoint hd k st = Some st_k
    /\ loop_body http endpoint hd st_k = Break why st'
    /\ sent' = sent ++ page_requests endpoint hd (page_number st) (S k).
Proof.
  induction fuel as [|fuel IH]; intros st sent why st' sent'; [discriminate|].
  cbn [loop].
  destruct (loop_body http endpoint hd st) as [st1|why1 st1] eqn:Hbody.
  - intros Hloop.
    destruct (IH _ _ _ _ _ Hloop) as (k & st_k & Hk & Hadv & Hbreak & ->).
    exists (S k), st_k. repeat split; [lia | | exact Hbreak |].
    + cbn [advance]. now rewrite Hbody.
    + apply continue_inv in Hbody as (? & ? & ? & ? & ? & _ & _ & _ & _ & _ & _ & ->).
      cbn [page_number]. unfold page_requests.
      change (seq (page_number st) (S (S k)))
        with (page_number st :: seq (S (page_number st)) (S k)).
      cbn [map]. now rewrite <- app_assoc.
  - intros [= <- <- <-]. exists 0, st. repeat split; [lia | exact Hbody].
Qed.

(** The iteration that leaves the loop appends the items of its page when
    the page is accepted, and nothing when it is not. *)
Lemma break_appends_page (st st' : loop_state) (why : break_reason) :
  loop_body http endpoint hd st = Break why st' ->
  all_recordings st' =
  all_recordings st
  ++ match accepted_page (http (page_request endpoint hd (page_number st))) with
     | Some _ => page_items (http (page_request endpoint hd (page_number st)))
     | None => []
     end.
Proof.
  unfold loop_body, page_items, accepted_page.
  destruct (http (page_request endpoint hd (page_number st)))
    as [|status_code [data|]]; [intros [= _ <-]; now rewrite app_nil_r| |].
  2: { destruct (negb (status_code =? 200)%Z && raise_for_status status_code);
       intros [= _ <-]; now rewrite app_nil_r. }
  destruct (negb (status_code =? 200)%Z && raise_for_status status_code).
  { intros [= _ <-]. destruct data; now rewrite app_nil_r. }
  destruct data as [| | | | | | |kvs];
    try (intros [= _ <-]; now rewrite app_nil_r).
  rewrite !dict_get_obj.
  generalize (match assoc "Results" kvs with Some v => v | None => JArr [] end).
  generalize (match assoc "TotalNumberOfResults" kvs with
              | Some v => v
              | None => JInt 0
              end).
  intros total results.
  destruct results as [|b|z|q|f|s|xs|rs]; cbn [py_len truthy py_iter negb];
    try (intros [= _ <-]; now rewrite app_nil_r).
  - destruct (String.eqb s EmptyString) eqn:Hs; cbn [negb].
    + apply String.eqb_eq in Hs as ->. intros [= _ <-]. now rewrite app_nil_r.
    + cbn [all_recordings].
      destruct (int_ge _ total) as [[|]|]; try discriminate;
        intros [= _ <-]; reflexivity.
  - destruct xs as [|x xs]; [intros [= _ <-]; now rewrite app_nil_r|].
    cbn [all_recordings].
    destruct (int_ge _ total) as [[|]|]; try discriminate;
      intros [= _ <-]; reflexivity.
  - destruct rs as [|r rs]; [intros [= _ <-]; now rewrite app_nil_r|].
    cbn [all_recordings].
    destruct (int_ge _ total) as [[|]|]; try discriminate;
      intros [= _ <-]; reflexivity.
Qed.

End RunShape.

Lemma accumulated_succ (http : request -> http_result) (endpoint : string)
    (hd : headers) (n k : nat) :
  accumulated http endpoint hd n (S k) =
  accumulated http endpoint hd n k
  ++ page_items (http (page_request endpoint hd (n + k))).
Proof.
  unfold accumulated. rewrite seq_S, map_app, concat_app. cbn [map List.concat].
  now rewrite app_nil_r.
Qed.

(** X1.  Whatever the server answers, a call that ends has asked for pages
    1, 2, ..., n in this order, each once, for some n of at least 1, always
    at the sessions address of the folder, with the same headers, page size
    100 and sorting by creation date, descending. *)
Theorem requests_are_consecutive_pages (fuel : nat) (oauth : outcome string)
    (http : request -> http_result) (c c' : PanoptoClient) (hd : headers)
    (folder_id : string) (run : fetch_run) :
  _get_headers oauth c = (Returned hd, c') ->
  get_folder_contents fuel oauth http c folder_id = Some run ->
  exists n,
    1 <= n <= fuel
    /\ requests run = page_requests (sessions_endpoint c' folder_id) hd 1 n
    /\ map (fun rq => pageNumber (req_params rq)) (requests run) = seq 1 n.
Proof.
  intros Hhd. rewrite (get_folder_contents_authenticated _ _ _ _ _ _ _ Hhd).
  destruct (loop http (sessions_endpoint c' folder_id) hd fuel initial_state [])
    as [[[why st] sent]|] eqn:Hloop; [|discriminate].
  intros [= <-]. cbn [requests].
  destruct (loop_inv _ _ _ _ _ _ _ _ _ Hloop) as (k & st_k & Hk & _ & _ & ->).
  exists (S k). cbn [app initial_state page_number].
  split; [lia|]. split; [reflexivity|].
  unfold page_requests. rewrite map_map. cbn [page_request req_params pageNumber].
  apply map_id.
Qed.

Lemma requests_are_consecutive_pages_witness :
  exists n,
    1 <= n <= 5
    /\ requests example_partial_run
       = page_requests (sessions_endpoint example_client_authenticated "folder")
           example_headers 1 n
    /\ map (fun rq => pageNumber (req_params rq)) (requests example_partial_run)
       = seq 1 n.
Proof.
  exact (requests_are_consecutive_pages 5 example_oauth
           (two_pages (Response 500 None)) example_client
           example_client_authenticated example_headers "folder"
           example_partial_run eq_refl eq_refl).
Defined.

(** X2.  What a call returns is the recordings of the pages it asked for,
    page after page in the order received and each item once.  With n
    requests made, the list is that of pages 1 to n when the answer to the
    last request is accepted (a status that is not rejected and a body that
    decodes to a dict), and that of pages 1 to n-1 when it is not.  Nothing
    is dropped, repeated, sorted or merged. *)
Theorem fetched_is_page_concatenation (fuel : nat) (oauth : outcome string)
    (http : request -> http_result) (c c' : PanoptoClient) (hd : headers)
    (folder_id : string) (run : fetch_run) (recordings : list json) :
  _get_headers oauth c = (Returned hd, c') ->
  get_folder_contents fuel oauth http c folder_id = Some run ->
  fetched run = Returned recordings ->
  1 <= List.length (requests run)
  /\ recordings =
     match accepted_page
             (http (page_request (sessions_endpoint c' folder_id) hd
                      (List.length (requests run)))) with
     | Some _ =>
         accumulated http (sessions_endpoint c' folder_id) hd 1
           (List.length (requests run))
     | None =>
         accumulated http (sessions_endpoint c' folder_id) hd 1
           (List.length (requests run) - 1)
     end.
Proof.
  intros Hhd. rewrite (get_folder_contents_authenticated _ _ _ _ _ _ _ Hhd).
  destruct (loop http (sessions_endpoint c' folder_id) hd fuel initial_state [])
    as [[[why st] sent]|] eqn:Hloop; [|discriminate].
  intros [= <-]. cbn [requests fetched]. unfold after_loop.
  destruct (total_recordings st); [|discriminate]. intros [= <-].
  destruct (loop_inv _ _ _ _ _ _ _ _ _ Hloop) as (k & st_k & _ & Hadv & Hbreak & ->).
  cbn [app]. unfold page_requests. rewrite length_map, length_seq.
  replace (S k - 1) with k by lia.
  pose proof (advance_accumulated _ _ _ _ _ _ Hadv) as Hacc.
  pose proof (advance_page_number _ _ _ _ _ _ Hadv) as Hpage.
  cbn [initial_state all_recordings page_number app] in Hacc, Hpage.
  split; [lia|].
  rewrite (break_appends_page _ _ _ _ _ _ Hbreak), Hacc, Hpage.
  destruct (accepted_page _).
  - rewrite accumulated_succ. reflexivity.
  - apply app_nil_r.
Qed.

(** Page 2 answers with status 500: what is returned is page 1. *)
Lemma fetched_is_page_concatenation_witness :
  1 <= List.length (requests example_partial_run)
  /\ [recording "1" "first"] =
     match accepted_page
             (two_pages (Response 500 None)
                (page_request (sessions_endpoint example_client_authenticated "folder")
                   example_headers (List.length (requests example_partial_run)))) with
     | Some _ =>
         accumulated (two_pages (Response 500 None))
           (sessions_endpoint example_client_authenticated "folder") example_headers 1
           (List.length (requests example_partial_run))
     | None =>
         accumulated (two_pages (Response 500 None))
           (sessions_endpoint example_client_authenticated "folder") example_headers 1
           (List.length (requests example_partial_run) - 1)
     end.
Proof.
  exact (fetched_is_page_concatenation 5 example_oauth
           (two_pages (Response 500 None)) example_client
           example_client_authenticated example_headers "folder"
           example_partial_run [recording "1" "first"] eq_refl eq_refl eq_refl).
Defined.

(** A first page answered with status 500 is not accepted, and the call
    raises. *)
Lemma get_folder_contents_raises_iff_witness :
  accepted_page (Response 500 None) = None.
Proof.
  exact (proj1 (proj1 (get_folder_contents_raises_iff 1 example_oauth
                         (always_status 500) example_client
                         {| server_url := "https://panopto.example";
                            access_token := Some "token" |}
                         {| Authorization := "Bearer token";
                            Content_Type := "application/json" |}
                         "folder" _ eq_refl eq_refl)) eq_refl).
Defined.

(** X3.  The loop has no bound of its own: against a server none of whose
    pages meets a stop condition (no empty page, no total reached, no error)
    the call is still running after any number of iterations. *)
Theorem get_folder_contents_never_returns (oauth : outcome string)
    (http : request -> http_result) (c c' : PanoptoClient) (hd : headers)
    (folder_id : string) :
  _get_headers oauth c = (Returned hd, c') ->
  (forall n, 1 <= n ->
     page_stops (accumulated http (sessions_endpoint c' folder_id) hd 1 (n - 1))
       (http (page_request (sessions_endpoint c' folder_id) hd n)) = false) ->
  forall fuel, get_folder_contents fuel oauth http c folder_id = None.
Proof.
  intros Hhd Hnever fuel.
  rewrite (get_folder_contents_authenticated _ _ _ _ _ _ _ Hhd).
  now rewrite loop_runs_forever.
Qed.

Lemma get_folder_contents_never_returns_witness :
  get_folder_contents 1000 example_oauth growing_server example_client "folder" = None.
Proof.
  apply (get_folder_contents_never_returns example_oauth growing_server example_client
           {| server_url := "https://panopto.example"; access_token := Some "token" |}
           {| Authorization := "Bearer token"; Content_Type := "application/json" |}
           "folder" eq_refl).
  intros n Hn. apply growing_server_never_stops. exact Hn.
Defined.

(** X4.  A first page that is accepted but carries no
    [TotalNumberOfResults] ends the fetch: the total defaults to 0, so the
    items of that page are returned after this one request and no further
    page is asked for, whatever the folder holds. *)
Theorem missing_total_stops_after_first_page (fuel : nat) (oauth : outcome string)
    (http : request -> http_result) (c c' : PanoptoClient) (hd : headers)
    (folder_id : string) (status_code : Z) (kvs : list (string * json))
    (x : json) (items : list json) :
  _get_headers oauth c = (Returned hd, c') ->
  http (page_request (sessions_endpoint c' folder_id) hd 1)
  = Response status_code (Some (JObj kvs)) ->
  raise_for_status status_code = false ->
  assoc "Results" kvs = Some (JArr (x :: items)) ->
  assoc "TotalNumberOfResults" kvs = None ->
  get_folder_contents (S fuel) oauth http c folder_id =
  Some {| fetched := Returned (x :: items);
          client_after := c';
          requests := [page_request (sessions_endpoint c' folder_id) hd 1];
          left_by := Some RetrievedAll |}.
Proof.
  intros Hhd Hpage Hstatus Hresults Htotal.
  rewrite (get_folder_contents_authenticated _ _ _ _ _ _ _ Hhd).
  cbn [loop initial_state page_number app]. unfold loop_body.
  cbn [initial_state page_number all_recordings].
  rewrite Hpage, Hstatus, andb_false_r, !dict_get_obj, Hresults, Htotal.
  cbn [truthy negb py_iter app int_ge].
  destruct (0 <=? Z.of_nat (List.length (x :: items)))%Z eqn:Hle;
    [reflexivity|].
  apply Z.leb_gt in Hle. lia.
Qed.

Lemma missing_total_stops_after_first_page_witness :
  get_folder_contents 3 example_oauth
    (paged (fun _ => Response 200
                       (Some (JObj [("Results", JArr (recordings_upto 100))]))))
    example_client "folder"
  = Some {| fetched := Returned (recordings_upto 100);
            client_after := {| server_url := "https://panopto.example";
                               access_token := Some "token" |};
            requests :=
              [page_request
                 (sessions_endpoint {| server_url := "https://panopto.example";
                                       access_token := Some "token" |} "folder")
                 {| Authorization := "Bearer token";
                    Content_Type := "application/json" |} 1];
            left_by := Some RetrievedAll |}.
Proof.
  apply (missing_total_stops_after_first_page 2 example_oauth
           (paged (fun _ => Response 200
                              (Some (JObj [("Results", JArr (recordings_upto 100))]))))
           example_client
           {| server_url := "https://panopto.example"; access_token := Some "token" |}
           {| Authorization := "Bearer token"; Content_Type := "application/json" |}
           "folder" 200 [("Results", JArr (recordings_upto 100))]
           (recording (str_int 100) "session") (recordings_upto 99));
    reflexivity.
Defined.

(** * The token *)

(** A non-empty token, once obtained, is what every later call answers. *)
Lemma ensure_authenticated_cached (oauth : outcome string) (c c' : PanoptoClient)
    (token : string) :
  _ensure_authenticated oauth c = (Returned token, c') ->
  token <> EmptyString ->
  forall oauth', _ensure_authenticated oauth' c' = (Returned token, c').
Proof.
  intros Hauth Hne oauth'. revert Hauth. unfold _ensure_authenticated.
  destruct (access_token c) as [[|a t]|] eqn:Hc.
  - destruct oauth as [tok|]; [|discriminate].
    intros [= -> <-]. cbn [access_token].
    destruct token; [contradiction | reflexivity].
  - intros [= <- <-]. now rewrite Hc.
  - destruct oauth as [tok|]; [|discriminate].
    intros [= -> <-]. cbn [access_token].
    destruct token; [contradiction | reflexivity].
Qed.

(** X5.  The token is fetched once: after a call that obtained a non-empty
    token, every later call answers that token and builds the same headers
    without consulting the OAuth2 helper, even when the helper would now
    fail, and leaves the client as it is. *)
Theorem token_is_cached (oauth : outcome string) (c c' : PanoptoClient)
    (token : string) :
  _ensure_authenticated oauth c = (Returned token, c') ->
  token <> EmptyString ->
  forall oauth',
    _ensure_authenticated oauth' c' = (Returned token, c')
    /\ _get_headers oauth' c' = _get_headers oauth c.
Proof.
  intros Hauth Hne oauth'.
  pose proof (ensure_authenticated_cached _ _ _ _ Hauth Hne oauth') as Hagain.
  split; [exact Hagain|].
  unfold _get_headers. now rewrite Hagain, Hauth.
Qed.

Lemma token_is_cached_witness :
  _ensure_authenticated (Raised AuthenticationError)
    {| server_url := "https://panopto.example"; access_token := Some "token" |}
  = (Returned "token",
     {| server_url := "https://panopto.example"; access_token := Some "token" |})
  /\ _get_headers (Raised AuthenticationError)
       {| server_url := "https://panopto.example"; access_token := Some "token" |}
     = _get_headers example_oauth example_client.
Proof.
  apply (token_is_cached example_oauth example_client
           {| server_url := "https://panopto.example"; access_token := Some "token" |}
           "token" eq_refl).
  discriminate.
Defined.

(** X17.  Fetching again through the client a first fetch left behind needs
    no new token: whatever the OAuth2 helper would now answer, the second
    call sends the same requests with the same headers and, the server
    answering alike, is the same run. *)
Theorem second_fetch_reuses_token (fuel : nat) (oauth : outcome string)
    (http : request -> http_result) (c c' : PanoptoClient) (token folder_id : string)
    (run : fetch_run) :
  _ensure_authenticated oauth c = (Returned token, c') ->
  token <> EmptyString ->
  get_folder_contents fuel oauth http c folder_id = Some run ->
  client_after run = c'
  /\ forall oauth',
       get_folder_contents fuel oauth' http (client_after run) folder_id = Some run.
Proof.
  intros Hauth Hne Hrun.
  assert (_get_headers oauth c
          = (Returned {| Authorization := ("Bearer " ++ token)%string;
                         Content_Type := "application/json" |}, c')) as Hhd
    by (unfold _get_headers; now rewrite Hauth).
  rewrite (get_folder_contents_authenticated _ _ _ _ _ _ _ Hhd) in Hrun.
  assert (client_after run = c') as Hc.
  { destruct (loop _ _ _ _ _ _) as [[[why st] sent]|]; [|discriminate].
    now injection Hrun as <-. }
  split; [exact Hc|]. intros oauth'. rewrite Hc.
  assert (_get_headers oauth' c'
          = (Returned {| Authorization := ("Bearer " ++ token)%string;
                         Content_Type := "application/json" |}, c')) as Hhd'.
  { unfold _get_headers.
    now rewrite (ensure_authenticated_cached _ _ _ _ Hauth Hne oauth'). }
  rewrite (get_folder_contents_authenticated _ _ _ _ _ _ _ Hhd'). exact Hrun.
Qed.

Lemma second_fetch_reuses_token_witness :
  client_after example_partial_run = example_client_authenticated
  /\ forall oauth',
       get_folder_contents 5 oauth' (two_pages (Response 500 None))
         (client_after example_partial_run) "folder"
       = Some example_partial_run.
Proof.
  apply (second_fetch_reuses_token 5 example_oauth (two_pages (Response 500 None))
           example_client example_client_authenticated "token" "folder"
           example_partial_run).
  - reflexivity.
  - discriminate.
  - reflexivity.
Defined.

(** An empty token is not kept: a client whose cached token is missing or
    empty asks the OAuth2 helper on every call, hands on whatever it answers,
    and after a failure is left exactly as it was. *)
Lemma empty_token_is_fetched_again (oauth : outcome string) (c : PanoptoClient) :
  access_token c = None \/ access_token c = Some EmptyString ->
  _ensure_authenticated oauth c =
  match oauth with
  | Returned token =>
      (Returned token, {| server_url := server_url c; access_token := Some token |})
  | Raised e => (Raised e, c)
  end
  /\ (forall oauth',
        _ensure_authenticated oauth'
          (snd (_ensure_authenticated (Returned EmptyString) c))
        = match oauth' with
          | Returned token =>
              (Returned token,
               {| server_url := server_url c; access_token := Some token |})
          | Raised e =>
              (Raised e,
               {| server_url := server_url c; access_token := Some EmptyString |})
          end).
Proof.
  intros [Hc|Hc]; unfold _ensure_authenticated; rewrite Hc; cbn [snd access_token];
    (split; [reflexivity | intros oauth'; reflexivity]).
Qed.

(** * The file *)

Lemma append_assoc (a b c : string) : ((a ++ b) ++ c = a ++ (b ++ c))%string.
Proof.
  induction a as [|x a IH]; cbn [append]; [reflexivity | now rewrite IH].
Qed.

Lemma append_nil_r (a : string) : (a ++ EmptyString = a)%string.
Proof.
  induction a as [|x a IH]; cbn [append]; [reflexivity | now rewrite IH].
Qed.

Section Reading.

(** A bare field is read character by character. *)
Lemma read_unquoted (f : string) : forall rest cur fields records,
  has_special f = false ->
  read_csv (f ++ rest) Unquoted cur fields records
  = read_csv rest Unquoted (cur ++ f) fields records.
Proof.
  induction f as [|c f IH]; intros rest cur fields records Hf.
  - cbn [append]. now rewrite append_nil_r.
  - cbn [has_special] in Hf. apply orb_false_iff in Hf as [Hc Hf].
    unfold csv_special in Hc.
    apply orb_false_iff in Hc as [Hc Hlf].
    apply orb_false_iff in Hc as [Hc Hcr].
    apply orb_false_iff in Hc as [Hcomma Hq].
    cbn [append read_csv]. rewrite Hq, Hcomma, Hcr, Hlf.
    rewrite IH by assumption. now rewrite append_assoc.
Qed.

(** Inside quotes every character is taken as it is, a doubled quote as
    one quote, up to the closing quote. *)
Lemma read_quoted (f : string) : forall rest cur fields records,
  read_csv (double_quotes f ++ String dquote rest) Quoted cur fields records
  = read_csv rest QuoteSeen (cur ++ f) fields records.
Proof.
  induction f as [|c f IH]; intros rest cur fields records.
  - cbn [double_quotes append read_csv]. rewrite Ascii.eqb_refl.
    now rewrite append_nil_r.
  - cbn [double_quotes]. destruct (Ascii.eqb c dquote) eqn:Hc.
    + apply Ascii.eqb_eq in Hc. subst c.
      cbn [append read_csv]. rewrite !Ascii.eqb_refl.
      rewrite IH. now rewrite append_assoc.
    + cbn [append read_csv]. rewrite Hc, IH. now rewrite append_assoc.
Qed.

Lemma read_field (f rest : string) (fields : list string)
    (records : list (list string)) :
  read_csv (csv_field f ++ rest) Unquoted EmptyString fields records
  = if has_special f then read_csv rest QuoteSeen f fields records
    else read_csv rest Unquoted f fields records.
Proof.
  unfold csv_field. destruct (has_special f) eqn:Hf.
  - cbn [append read_csv]. rewrite Ascii.eqb_refl.
    rewrite append_assoc. cbn [append]. now rewrite read_quoted.
  - now rewrite read_unquoted.
Qed.

Lemma read_field_comma (f rest : string) (fields : list string)
    (records : list (list string)) :
  read_csv (csv_field f ++ String "," rest) Unquoted EmptyString fields records
  = read_csv rest Unquoted EmptyString (fields ++ [f]) records.
Proof.
  rewrite read_field. destruct (has_special f); reflexivity.
Qed.

Lemma read_field_end (f rest : string) (fields : list string)
    (records : list (list string)) :
  read_csv (csv_field f ++ String CR (String LF rest)) Unquoted EmptyString
    fields records
  = read_csv rest Unquoted EmptyString [] (records ++ [fields ++ [f]]).
Proof.
  rewrite read_field. destruct (has_special f); reflexivity.
Qed.

(** A record written by the writer is read back as its fields. *)
Lemma read_record (fs : list string) : forall f rest fields records,
  read_csv (csv_record (f :: fs) ++ rest) Unquoted EmptyString fields records
  = read_csv rest Unquoted EmptyString [] (records ++ [fields ++ f :: fs]).
Proof.
  unfold csv_record.
  induction fs as [|g fs IH]; intros f rest fields records.
  - cbn [map String.concat]. rewrite append_assoc. cbn [append].
    apply read_field_end.
  - change (String.concat "," (map csv_field (f :: g :: fs)))
      with (csv_field f ++ String "," (String.concat "," (map csv_field (g :: fs))))%string.
    rewrite !append_assoc. cbn [append]. rewrite read_field_comma.
    replace (String.concat "," (map csv_field (g :: fs)) ++ String CR (String LF rest))%string
      with ((String.concat "," (map csv_field (g :: fs))
             ++ String CR (String LF EmptyString)) ++ rest)%string
      by (now rewrite append_assoc).
    rewrite IH.
    now rewrite <- app_assoc.
Qed.

End Reading.

Section ExportFacts.

Variable py : python.







(** X9.  Without a token nothing happens: when no token is cached and the
    OAuth2 helper raises, the export raises that exception, no request is
    sent, no file is written and the client is left as it was. *)
Theorem export_without_token (fuel : nat) (e : exn)
    (http : request -> http_result) (c : PanoptoClient)
    (folder_id output_file : string) (fs : filesystem) :
  access_token c = None \/ access_token c = Some EmptyString ->
  export_recordings_to_csv py fuel (Raised e) http c folder_id output_file fs
  = Some {| exported := Raised e;
            fs_after := fs;
            fetch := {| fetched := Raised e; client_after := c;
                        requests := []; left_by := None |} |}.
Proof.
  intros Hc.
  unfold export_recordings_to_csv, get_folder_contents, _get_headers,
    _ensure_authenticated.
  destruct Hc as [-> | ->]; reflexivity.
Qed.

(** X10.  Reading back what a complete export wrote gives the column names
    and then, for each row in order, its eight cell texts exactly as they
    were: commas, quotes and line breaks inside a cell neither split nor
    merge cells. *)
Theorem read_back_written_file (rows : list (list (string * json))) :
  read_file (writeheader py ++ rows_text py rows)
  = Some (fieldnames :: map (row_cells py) rows).
Proof.
  unfold read_file.
  assert (forall rs records,
             read_csv (rows_text py rs) Unquoted EmptyString [] records
             = Some (records ++ map (row_cells py) rs)) as Hrows.
  { induction rs as [|row rs IH]; intros records.
    - cbn. now rewrite app_nil_r.
    - unfold rows_text. cbn [map fold_right].
      change (writerow py row) with (csv_record (row_cells py row)).
      unfold row_cells at 1. cbn [map fieldnames].
      rewrite read_record. fold (rows_text py rs). rewrite IH.
      cbn [app]. now rewrite <- app_assoc. }
  change (writeheader py) with (csv_record fieldnames).
  unfold fieldnames at 1. rewrite read_record, Hrows. reflexivity.
Qed.

End ExportFacts.

(** ** Two runs of the export *)

Section TwoRuns.

Variables http1 http2 : request -> http_result.
Variables endpoint1 endpoint2 : string.
Variables hd1 hd2 : headers.

(** The two servers give the same answer to the request for each page. *)
Hypothesis same_pages : forall n,
  http1 (page_request endpoint1 hd1 n) = http2 (page_request endpoint2 hd2 n).

(** An iteration depends on the address and on the headers only through the
    answer to its request. *)
Lemma loop_body_same_pages (st : loop_state) :
  loop_body http1 endpoint1 hd1 st = loop_body http2 endpoint2 hd2 st.
Proof.
  unfold loop_body. now rewrite same_pages.
Qed.

(** A loop that ends within some number of iterations ends alike within any
    greater number, whatever was requested before. *)
Lemma loop_same_pages (fuel1 : nat) : forall fuel2 st sent1 sent2 why st' sent1',
  fuel1 <= fuel2 ->
  loop http1 endpoint1 hd1 fuel1 st sent1 = Some (why, st', sent1') ->
  exists sent2', loop http2 endpoint2 hd2 fuel2 st sent2 = Some (why, st', sent2').
Proof.
  induction fuel1 as [|fuel1 IH]; intros fuel2 st sent1 sent2 why st' sent1' Hle;
    [discriminate|].
  destruct fuel2 as [|fuel2]; [lia|].
  cbn [loop]. rewrite <- loop_body_same_pages.
  destruct (loop_body http1 endpoint1 hd1 st) as [st1|why1 st1].
  - apply IH. lia.
  - intros [= <- <- _]. eauto.
Qed.

End TwoRuns.

Lemma get_headers_server_url (oauth : outcome string) (c c' : PanoptoClient)
    (r : outcome headers) :
  _get_headers oauth c = (r, c') -> server_url c' = server_url c.
Proof.
  unfold _get_headers, _ensure_authenticated.
  destruct (access_token c) as [[|a t]|]; destruct oauth;
    intros [= _ <-]; reflexivity.
Qed.

Section SameServer.

Variable py : python.
Variables c c' : PanoptoClient.
Hypothesis same_server : server_url c = server_url c'.

(** A row depends on the client only through its server address. *)
Lemma recording_row_same_server (recording : json) :
  recording_row py c recording = recording_row py c' recording.
Proof.
  unfold recording_row. now rewrite same_server.
Qed.

Lemma write_rows_same_server (recordings : list json) : forall written,
  write_rows py c recordings written = write_rows py c' recordings written.
Proof.
  induction recordings as [|recording rest IH]; intros written; [reflexivity|].
  cbn [write_rows]. rewrite recording_row_same_server.
  destruct (recording_row py c' recording); [apply IH | reflexivity].
Qed.

End SameServer.

(** What is written is what was there, then the rows of the recordings up
    to the first that gets none. *)
Lemma write_rows_text (py : python) (c : PanoptoClient) (recordings : list json) :
  forall written,
    snd (write_rows py c recordings written)
    = (written ++ rows_text py (rows_written py c recordings))%string.
Proof.
  induction recordings as [|recording rest IH]; intros written.
  - cbn. now rewrite append_nil_r.
  - cbn [write_rows rows_written].
    destruct (recording_row py c recording) as [row|e].
    + rewrite IH. unfold rows_text. cbn [map fold_right]. now rewrite append_assoc.
    + cbn. now rewrite append_nil_r.
Qed.

(** C9.  Two runs of the export for the same server address, folder, output
    path and Python runtime, against servers that answer the request for
    each page alike, leave byte-identical files, whatever else differs
    between them: the token and whether it was cached, what the filesystem
    held before, and how long the second run is allowed to take.  When the
    first run ends, so does the second, with the same recordings fetched and
    the same result; when recordings were fetched, the output file of
    either run holds the header line and then the rows of the recordings up
    to the first that gets none, and nothing of what the file held before;
    when none were fetched, neither run touches the filesystem. *)
Theorem export_deterministic (py : python) (fuel1 fuel2 : nat)
    (oauth1 oauth2 : outcome string) (http1 http2 : request -> http_result)
    (c1 c2 c1' c2' : PanoptoClient) (hd1 hd2 : headers)
    (folder_id output_file : string) (fs1 fs2 : filesystem) (run1 : export_run) :
  server_url c1 = server_url c2 ->
  _get_headers oauth1 c1 = (Returned hd1, c1') ->
  _get_headers oauth2 c2 = (Returned hd2, c2') ->
  (forall n,
      http1 (page_request (sessions_endpoint c1' folder_id) hd1 n)
      = http2 (page_request (sessions_endpoint c2' folder_id) hd2 n)) ->
  fuel1 <= fuel2 ->
  export_recordings_to_csv py fuel1 oauth1 http1 c1 folder_id output_file fs1
  = Some run1 ->
  exists run2,
    export_recordings_to_csv py fuel2 oauth2 http2 c2 folder_id output_file fs2
    = Some run2
    /\ fetched (fetch run1) = fetched (fetch run2)
    /\ exported run1 = exported run2
    /\ match fetched (fetch run1) with
       | Returned (recording :: rest) =>
           fs_after run1 output_file
           = Some (writeheader py
                   ++ rows_text py (rows_written py c1' (recording :: rest)))%string
           /\ fs_after run2 output_file = fs_after run1 output_file
       | _ => fs_after run1 = fs1 /\ fs_after run2 = fs2
       end.
Proof.
  intros Hurl Hhd1 Hhd2 Hpages Hfuel.
  assert (server_url c2' = server_url c1') as Hurl'.
  { rewrite (get_headers_server_url _ _ _ _ Hhd1), (get_headers_server_url _ _ _ _ Hhd2).
    now symmetry. }
  unfold export_recordings_to_csv.
  rewrite (get_folder_contents_authenticated _ _ http1 _ _ _ _ Hhd1),
    (get_folder_contents_authenticated _ _ http2 _ _ _ _ Hhd2).
  destruct (loop http1 (sessions_endpoint c1' folder_id) hd1 fuel1 initial_state [])
    as [[[why st] sent1]|] eqn:Hloop; [|discriminate].
  destruct (loop_same_pages _ _ _ _ _ _ Hpages _ _ _ _ [] _ _ _ Hfuel Hloop)
    as [sent2 ->].
  cbn [fetched client_after].
  destruct (after_loop st) as [[|recording rest]|e].
  - intros [= <-]. eexists. split; [reflexivity|]. cbn. auto.
  - rewrite (write_rows_same_server py c2' c1' Hurl').
    pose proof (write_rows_text py c1' (recording :: rest) (writeheader py)) as Htext.
    destruct (write_rows py c1' (recording :: rest) (writeheader py))
      as [result text].
    cbn [snd] in Htext. subst text.
    intros [= <-]. eexists. split; [reflexivity|].
    cbn [fetched fetch exported fs_after]. unfold fs_write.
    rewrite String.eqb_refl. auto.
  - intros [= <-]. eexists. split; [reflexivity|]. cbn. auto.
Qed.

(** The same folder exported twice: by a client that has to ask for its
    token, into an empty directory, and by one that holds another token,
    over a file left by an earlier export and with more iterations allowed.
    Both files are the header line and the line of the recording. *)
Lemma export_deterministic_witness :
  exists run2,
    export_recordings_to_csv example_python 3 (Raised AuthenticationError)
      (folder_server [JObj example_recording]) cached_client "folder"
      "recordings.csv" old_file_fs
    = Some run2
    /\ Returned [JObj example_recording] = fetched (fetch run2)
    /\ Returned tt = exported run2
    /\ (fs_after (example_export example_client_authenticated "token" empty_fs)
          "recordings.csv"
        = Some (writeheader example_python
                ++ rows_text example_python
                     (rows_written example_python example_client_authenticated
                        [JObj example_recording]))%string
        /\ fs_after run2 "recordings.csv"
           = fs_after (example_export example_client_authenticated "token" empty_fs)
               "recordings.csv").
Proof.
  exact (export_deterministic example_python 1 3
           example_oauth (Raised AuthenticationError)
           (folder_server [JObj example_recording])
           (folder_server [JObj example_recording])
           example_client cached_client example_client_authenticated cached_client
           example_headers
           {| Authorization := "Bearer cached"; Content_Type := "application/json" |}
           "folder" "recordings.csv" empty_fs old_file_fs
           (example_export example_client_authenticated "token" empty_fs)
           eq_refl eq_refl eq_refl (fun n => eq_refl) (le_S _ _ (le_S _ _ (le_n 1)))
           eq_refl).
Defined.

(** ** Examples of the export *)




Lemma export_without_token_witness :
  export_recordings_to_csv example_python 3 (Raised AuthenticationError)
    (folder_server [JObj example_recording]) example_client "folder"
    "recordings.csv" empty_fs
  = Some {| exported := Raised AuthenticationError;
            fs_after := empty_fs;
            fetch := {| fetched := Raised AuthenticationError;
                        client_after := example_client;
                        requests := []; left_by := None |} |}.
Proof.
  exact (export_without_token example_python 3 AuthenticationError
           (folder_server [JObj example_recording]) example_client "folder"
           "recordings.csv" empty_fs (or_introl eq_refl)).
Defined.

(** * Rows, once more *)

(** The duration can be computed of the finite numbers only. *)
Lemma duration_fields_number (py : python) (v : json) :
  if is_number v then
    match number_value v with
    | Some _ => exists hms, duration_fields py v = Returned hms
    | None => duration_fields py v = Raised ValueError
    end
  else duration_fields py v = Raised TypeError.
Proof.
  destruct v as [|b|z|q|f|s|xs|kvs];
    cbn [is_number number_value duration_fields]; eauto.
  destruct (float_exact q); eauto.
Qed.

(** X11.  Which recordings get a row: exactly the JSON objects whose
    [Duration], when present, is a finite number and which have an ['Id'].
    Anything that is not an object raises [AttributeError]; an object whose
    [Duration] is not a number (null, a string, ...) raises [TypeError], and
    one whose [Duration] is a float that is not finite (as [1e999] or [NaN]
    decode to) raises [ValueError], either whether or not it has an ['Id'];
    an object with a usable duration and no ['Id'] raises [KeyError]. *)
Theorem recording_row_cases (py : python) (c : PanoptoClient)
    (recording : json) :
  match recording with
  | JObj kvs =>
      let duration_secs :=
        match assoc "Duration" kvs with Some v => v | None => JInt 0 end in
      if is_number duration_secs then
        match number_value duration_secs, assoc "Id" kvs with
        | None, _ => recording_row py c recording = Raised ValueError
        | Some _, None => recording_row py c recording = Raised (KeyError "Id")
        | Some _, Some _ =>
            exists row, recording_row py c recording = Returned row
        end
      else recording_row py c recording = Raised TypeError
  | _ => recording_row py c recording = Raised AttributeError
  end.
Proof.
  destruct recording as [| | | | | | |kvs]; try reflexivity.
  cbv zeta. rewrite recording_row_dict.
  pose proof (duration_fields_number py
                (match assoc "Duration" kvs with Some v => v | None => JInt 0 end))
    as Hd.
  destruct (is_number _).
  - destruct (number_value _) as [q|].
    + destruct Hd as [hms ->]. cbn [bind py_getitem].
      destruct (assoc "Id" kvs) as [id|]; [|reflexivity].
      cbn [bind]. eauto.
    + rewrite Hd. destruct (assoc "Id" kvs); reflexivity.
  - rewrite Hd. destruct (assoc "Id" kvs); reflexivity.
Qed.

(** A recording with its identifier only shows every default. *)
Lemma missing_fields_default_witness :
  (assoc "Name" bare_recording = None ->
   assoc "Name" bare_row = Some (JStr EmptyString))
  /\ (assoc "ViewerCount" bare_recording = None ->
      assoc "Views" bare_row = Some (JInt 0) /\ csv_text example_python (JInt 0) = "0")
  /\ (assoc "State" bare_recording = None ->
      assoc "Status" bare_row = Some (JStr EmptyString))
  /\ (assoc "CreatedDate" bare_recording = None ->
      assoc "Created" bare_row = Some (JStr EmptyString))
  /\ (assoc "Duration" bare_recording = None ->
      assoc "Duration" bare_row = Some (JStr "00:00:00")).
Proof.
  exact (missing_fields_default example_python example_client bare_recording bare_row
           eq_refl).
Defined.

(** X13.  A duration given as a float of [x] seconds, from 0 up to 2^53, is
    shown as the whole seconds below it: the Duration column is that of the
    integer [floor x], the fraction of a second is dropped and never rounded
    up. *)
Theorem float_duration_column (py : python) (c : PanoptoClient)
    (kvs row : list (string * json)) (x : Q) :
  recording_row py c (JObj kvs) = Returned row ->
  assoc "Duration" kvs = Some (JFloat x) ->
  (0 <= x)%Q -> (x < inject_Z (2 ^ 53))%Q ->
  assoc "Duration" row
  = Some (JStr (format_duration
                  (Qfloor x / 3600, (Qfloor x mod 3600) / 60, Qfloor x mod 60)%Z))
  /\ (0 <= Qfloor x)%Z.
Proof.
  rewrite recording_row_dict. intros Hrow Hd Hlo Hhi.
  rewrite Hd, float_duration_truncates in Hrow.
  2: { unfold float_exact. apply andb_true_intro. split.
       - now apply Qle_bool_iff.
       - apply negb_true_iff. destruct (Qle_bool _ x) eqn:Hle; [|reflexivity].
         apply Qle_bool_iff in Hle. exfalso. exact (Qlt_not_le _ _ Hhi Hle). }
  cbn [duration_fields bind] in Hrow.
  destruct (py_getitem (JObj kvs) "Id") as [id|]; [|discriminate].
  cbn [bind] in Hrow. injection Hrow as <-.
  split; [reflexivity|].
  change 0%Z with (Qfloor 0). now apply Qfloor_resp_le.
Qed.

Lemma float_duration_column_witness :
  assoc "Duration"
    [("Name", JStr "Lecture 1"); ("ID", JStr "abc"); ("Duration", JStr "01:02:05");
     ("Created", JStr EmptyString); ("Folder", JStr EmptyString); ("Views", JInt 0);
     ("Status", JStr EmptyString);
     ("URL", JStr "https://panopto.example/Panopto/Pages/Viewer.aspx?id=abc")]
  = Some (JStr (format_duration
                  (Qfloor (37259 # 10) / 3600, (Qfloor (37259 # 10) mod 3600) / 60,
                   Qfloor (37259 # 10) mod 60)%Z))
  /\ (0 <= Qfloor (37259 # 10))%Z.
Proof.
  apply (float_duration_column example_python example_client example_float_recording
           _ (37259 # 10)).
  - reflexivity.
  - reflexivity.
  - unfold Qle. cbn. lia.
  - unfold Qlt. cbn. lia.
Defined.

(** * The constructor *)

Lemma rstrip_slash_cons (c : ascii) (rest : string) :
  rstrip_slash (String c rest) =
  match rstrip_slash rest with
  | EmptyString => if Ascii.eqb c "/" then EmptyString else String c EmptyString
  | String a t => String c (String a t)
  end.
Proof.
  reflexivity.
Qed.

(** X14.  The address a client keeps is the configured one without its
    trailing slashes: the configured address is the kept one followed by
    slashes only, the kept one does not end in a slash, and building a client
    from the kept address changes nothing.  Slashes elsewhere are kept. *)
Theorem init_strips_trailing_slashes (url : string) :
  (exists n, url = (server_url (__init__ url) ++ slashes n)%string)
  /\ last_char (server_url (__init__ url)) <> Some "/"%char
  /\ __init__ (server_url (__init__ url)) = __init__ url
  /\ access_token (__init__ url) = None.
Proof.
  unfold __init__. cbn [server_url access_token].
  assert ((exists n, url = (rstrip_slash url ++ slashes n)%string)
          /\ last_char (rstrip_slash url) <> Some "/"%char
          /\ rstrip_slash (rstrip_slash url) = rstrip_slash url) as (H1 & H2 & H3).
  { induction url as [|c rest (IH1 & IH2 & IH3)].
    - repeat split; [now exists 0 | discriminate].
    - rewrite rstrip_slash_cons.
      destruct IH1 as [n Hn].
      destruct (rstrip_slash rest) as [|a t] eqn:Hr.
      + cbn [append] in Hn. subst rest.
        destruct (Ascii.eqb c "/") eqn:Hc.
        * apply Ascii.eqb_eq in Hc. subst c.
          repeat split; [now exists (S n) | discriminate].
        * repeat split.
          -- now exists n.
          -- cbn. intros [= ->]. discriminate.
          -- cbn. now rewrite Hc.
      + repeat split.
        * exists n. cbn [append]. f_equal. exact Hn.
        * exact IH2.
        * rewrite rstrip_slash_cons, IH3. reflexivity. }
  repeat split; [exact H1 | exact H2 | now rewrite H3].
Qed.

(** * Fetch and export together *)



(** X18.  Every row handed to the writer has exactly the columns of the
    header, each once and in the header's order, so the writer never meets a
    key it does not know; the line written for it holds eight fields. *)
Theorem row_has_the_header_columns (py : python) (c : PanoptoClient)
    (recording : json) (row : list (string * json)) :
  recording_row py c recording = Returned row ->
  map fst row = fieldnames
  /\ List.length (row_cells py row) = 8
  /\ read_file (writerow py row) = Some [row_cells py row].
Proof.
  intros Hrow.
  destruct (recording_row_returned _ _ _ _ Hrow) as [kvs ->].
  rewrite recording_row_dict in Hrow.
  destruct (duration_fields _ _) as [hms|]; [|discriminate].
  destruct (py_getitem (JObj kvs) "Id") as [id|]; [|discriminate].
  cbn [bind] in Hrow. injection Hrow as <-.
  split; [reflexivity|]. split; [reflexivity|].
  unfold read_file.
  change (writerow py ?r) with (csv_record (row_cells py r)).
  unfold row_cells. cbn [map fieldnames].
  rewrite <- (append_nil_r (csv_record _)), read_record. reflexivity.
Qed.

Lemma row_has_the_header_columns_witness :
  map fst example_row = fieldnames
  /\ List.length (row_cells example_python example_row) = 8
  /\ read_file (writerow example_python example_row)
     = Some [row_cells example_python example_row].
Proof.
  exact (row_has_the_header_columns example_python example_client
           (JObj example_recording) example_row eq_refl).
Defined.
